(** * HighwayHalo: the geofencing and speed-estimation core of [App.jsx]

    The repository keeps two revisions of [frontend/src/App.jsx]:

    - the proximity-only revision ([ProximityOnly] below): [calculateDistance]
      and [checkProximity], radius 100 m, first point in range;
    - the speed revision ([SpeedVariant] below): [calculateDistance],
      [checkProximityAndSpeed] (radius 10 m, nearest point in range) and the
      [watchPosition] callback that estimates the speed from the previous fix.

    JavaScript numbers are IEEE 754 binary64 values: they are modelled by
    Rocq's primitive [float], whose operations are the processor's and whose
    specification ([Prim2SF], [SFdiv], [SFcompare], ...) is the one the proofs
    use.  The built-ins that ECMA-262 leaves "implementation-approximated"
    ([Math.sin], [Math.cos], [Math.sqrt], [Math.atan2], the [**] operator) and
    [Number::toString] are the fields of the class [Host]: every theorem on
    the program holds for every host, and [RefHost] is one host to run the
    program on. *)

From Stdlib Require Import ZArith List Ascii String Bool Lia.
From Stdlib Require Import Floats DecimalString Permutation.
Import ListNotations.

Set Warnings "-inexact-float".

#[local] Open Scope float_scope.

(** ** JavaScript numbers *)

Module JSNumber.

(** The global [Infinity]. *)
Definition Infinity : float := infinity.

(** [Math.PI]: the binary64 value closest to pi. *)
Definition Math_PI : float := 3.141592653589793.

(** The Number of a natural number below [2^63] (exact below [2^53]). *)
Definition of_nonneg_Z (n : Z) : float := of_uint63 (Uint63.of_Z n).

(** The mantissa of a finite number with its sign. *)
Definition signed_mantissa (s : bool) (m : positive) : Z :=
  if s then Z.neg m else Z.pos m.

(** [floor (M * 2^e + 1/2)] for [e < 0], in exact integer arithmetic. *)
Definition round_half_up (M e : Z) : Z :=
  ((M + 2 ^ (- e - 1)) / 2 ^ (- e))%Z.

(** [Math.round] (ECMA-262 21.3.2.28): NaN, the zeros and the infinities are
    returned as they are; otherwise the integral Number closest to [x], a tie
    going to the larger one; [-0] for [-0.5 <= x < 0]. *)
Definition Math_round (x : float) : float :=
  match Prim2SF x with
  | S754_finite s m e =>
      if (0 <=? e)%Z then x
      else
        let n := round_half_up (signed_mantissa s m) e in
        if s then - of_nonneg_Z (- n) else of_nonneg_Z n
  | _ => x
  end.

(** The sign of a number, [None] for NaN. *)
Definition SFsign (x : spec_float) : option bool :=
  match x with
  | S754_zero s | S754_infinity s | S754_finite s _ _ => Some s
  | S754_nan => None
  end.

(** The decimal digits of a natural number, ["0"] for zero. *)
Definition digits (n : Z) : string :=
  NilZero.string_of_uint (N.to_uint (Z.to_N n)).

Fixpoint zeros (k : nat) : string :=
  match k with
  | O => EmptyString
  | S k' => String "0"%char (zeros k')
  end.

(** Steps 11.b-11.c of [Number.prototype.toFixed]: [n] printed with [f]
    digits after the point. *)
Definition fixed_digits (n : Z) (f : nat) : string :=
  let m := digits n in
  match f with
  | O => m
  | _ =>
      let k := String.length m in
      let m := if (k <=? f)%nat then (zeros (S f - k) ++ m)%string else m in
      let k := String.length m in
      (substring 0 (k - f) m ++ "." ++ substring (k - f) f m)%string
  end.

End JSNumber.

Import JSNumber.

(** ** The host environment *)

(** The built-ins whose results ECMA-262 does not fix bit for bit, and
    [Number::toString] (the shortest digits that read back as the number). *)
Class Host := {
  Math_sin : float -> float;
  Math_cos : float -> float;
  Math_sqrt : float -> float;
  Math_atan2 : float -> float -> float;
  Number_exponentiate : float -> float -> float;
  Number_toString : float -> string;
}.

Section NumberPrototype.

Context {host : Host}.

(** [x.toFixed(f)] for [0 <= f <= 100] (ECMA-262 21.1.3.3). *)
Definition toFixed (x : float) (f : nat) : string :=
  match Prim2SF x with
  | S754_finite s m e =>
      if 1e21 <=? abs x then
        ((if s then "-" else "") ++ Number_toString (abs x))%string
      else
        let scaled := (Z.pos m * 10 ^ Z.of_nat f)%Z in
        let n := if (0 <=? e)%Z then (scaled * 2 ^ e)%Z
                 else round_half_up scaled e in
        ((if s then "-" else "") ++ fixed_digits n f)%string
  | S754_zero _ => fixed_digits 0 f
  | _ => Number_toString x
  end.

End NumberPrototype.

(** The results ECMA-262 fixes for the built-ins at [+0]: [Math.sin(+0)],
    [(+0) ** 2] and [Math.sqrt(+0)] are [+0], and so is [Math.atan2(+0, x)] for
    [x > 0], here the host's square root of 1. *)
Definition fixedAtZero (host : Host) : Prop :=
  Math_sin 0 = 0 /\
  Number_exponentiate 0 2 = 0 /\
  Math_sqrt 0 = 0 /\
  Math_atan2 0 (Math_sqrt 1) = 0.

(** ** Records of the program *)

(** A campus point, as the points service returns it
    ([backend/models/CampusPoint.js]). *)
Module Point.
Record t := { name : string; type : string; lat : float; lng : float }.
End Point.

(** The argument of [onProximityAlert]. *)
Module Alert.
Record t := { type : string; name : string; distance : float }.
End Alert.

(** [newLocation] / [userLocation]. *)
Module Location.
Record t := { lat : float; lng : float }.
End Location.

(** [lastPosition]: [{ ...newLocation, time: Date.now() }]. *)
Module LastPosition.
Record t := { lat : float; lng : float; time : float }.
End LastPosition.

(** ** The proximity-only revision *)

Module ProximityOnly.
Section WithHost.

Context {host : Host}.

(** Haversine distance in metres. *)
Definition calculateDistance (lat1 lon1 lat2 lon2 : float) : float :=
  let R := 6371000 in
  let dLat := (lat2 - lat1) * Math_PI / 180 in
  let dLon := (lon2 - lon1) * Math_PI / 180 in
  let a :=
    Math_sin (dLat / 2) * Math_sin (dLat / 2) +
    Math_cos (lat1 * Math_PI / 180) * Math_cos (lat2 * Math_PI / 180) *
    Math_sin (dLon / 2) * Math_sin (dLon / 2) in
  let c := 2 * Math_atan2 (Math_sqrt a) (Math_sqrt (1 - a)) in
  R * c.

(** The [for ... of] loop with its [break]; the result lists the calls of
    [onProximityAlert] in order. *)
Fixpoint checkProximity (points : list Point.t) (userLat userLng : float)
  : list Alert.t :=
  match points with
  | [] => []
  | point :: rest =>
      let distance :=
        calculateDistance userLat userLng (Point.lat point) (Point.lng point) in
      if distance <=? 100 then
        [ {| Alert.type := Point.type point;
             Alert.name := Point.name point;
             Alert.distance := Math_round distance |} ]
      else checkProximity rest userLat userLng
  end.

(** For the statements: the distance from the fix to a point, and the alert
    [checkProximity] raises for a point. *)
Definition distanceTo (userLat userLng : float) (p : Point.t) : float :=
  calculateDistance userLat userLng (Point.lat p) (Point.lng p).

Definition alertFor (userLat userLng : float) (p : Point.t) : Alert.t :=
  {| Alert.type := Point.type p;
     Alert.name := Point.name p;
     Alert.distance := Math_round (distanceTo userLat userLng p) |}.

End WithHost.
End ProximityOnly.

(** ** The speed revision *)

Module SpeedVariant.

(** [nearestPoint]: [{ ...point, distance }]. *)
Record Nearest := { point : Point.t; distance : float }.

(** The state of [LocationTracker]: the two [useState] cells. *)
Record TrackerState := {
  userLocation : option Location.t;
  lastPosition : option LastPosition.t;
}.

(** [useState(null)] twice. *)
Definition initialState : TrackerState :=
  {| userLocation := None; lastPosition := None |}.

(** What one run of the [watchPosition] callback hands to its collaborators,
    in program order. *)
Inductive Effect :=
| SpeedUpdate (shown : string)
| SetView (latitude longitude : float) (zoom : Z)
| ProximityAlert (alertInfo : Alert.t).

(** One run of the callback: the state it commits, its local [userSpeed]
    and its effects. *)
Record Run := {
  nextState : TrackerState;
  userSpeed : float;
  effects : list Effect;
}.

(** [App]: [const speedLimit = 5]. *)
Definition App_speedLimit : float := 5.

(** [App]: the points used when the points service does not answer. *)
Definition fallbackPoints : list Point.t :=
  [ {| Point.name := "Hostel Camera-1"; Point.type := "CCTV";
       Point.lat := 30.8627650; Point.lng := 75.8607660 |};
    {| Point.name := "Accidental Prone Area"; Point.type := "Speed Breaker";
       Point.lat := 30.8611150; Point.lng := 75.8610131 |};
    {| Point.name := "Lipton Camera-2"; Point.type := "CCTV";
       Point.lat := 30.8600959; Point.lng := 75.8610409 |};
    {| Point.name := "MBA Block Construction Area"; Point.type := "Speed Breaker";
       Point.lat := 30.8601031; Point.lng := 75.8603610 |} ].

Section WithHost.

Context {host : Host}.

(** Haversine distance in metres. *)
Definition calculateDistance (lat1 lon1 lat2 lon2 : float) : float :=
  let R := 6371000 in
  let dLat := (lat2 - lat1) * Math_PI / 180 in
  let dLon := (lon2 - lon1) * Math_PI / 180 in
  let a :=
    Number_exponentiate (Math_sin (dLat / 2)) 2 +
    Math_cos (lat1 * Math_PI / 180) *
    Math_cos (lat2 * Math_PI / 180) *
    Number_exponentiate (Math_sin (dLon / 2)) 2 in
  let c := 2 * Math_atan2 (Math_sqrt a) (Math_sqrt (1 - a)) in
  R * c.

(** One iteration of the loop of [checkProximityAndSpeed] on the pair
    [(nearestPoint, minDistance)]. *)
Definition scanPoint (userLat userLng : float)
    (acc : option Nearest * float) (p : Point.t) : option Nearest * float :=
  let distance :=
    calculateDistance userLat userLng (Point.lat p) (Point.lng p) in
  if (distance <=? 10) && (distance <? snd acc) then
    (Some {| point := p; distance := distance |}, distance)
  else acc.

(** The loop: [nearestPoint = null], [minDistance = Infinity], then every
    point in sequence order. *)
Definition findNearest (points : list Point.t) (userLat userLng : float)
  : option Nearest * float :=
  fold_left (scanPoint userLat userLng) points (None, Infinity).

(** The template literal of the speed alert. *)
Definition slowDownMessage (userSpeed speedLimit : float) (near : string)
  : string :=
  ("⚠️ SLOW DOWN! Speed: " ++ toFixed userSpeed 1 ++ " km/h (Max: " ++
   Number_toString speedLimit ++ " km/h) near " ++ near)%string.

(** The result lists the calls of [onProximityAlert] in order. *)
Definition checkProximityAndSpeed (points : list Point.t) (speedLimit : float)
    (userLat userLng userSpeed : float) : list Alert.t :=
  match fst (findNearest points userLat userLng) with
  | Some nearestPoint =>
      if speedLimit <? userSpeed then
        [ {| Alert.type := "Speed Alert";
             Alert.name :=
               slowDownMessage userSpeed speedLimit
                 (Point.name (point nearestPoint));
             Alert.distance := Math_round (distance nearestPoint) |} ]
      else
        [ {| Alert.type := Point.type (point nearestPoint);
             Alert.name := Point.name (point nearestPoint);
             Alert.distance := Math_round (distance nearestPoint) |} ]
  | None => []
  end.

(** For the statements: the distance from the fix to a point. *)
Definition distanceTo (userLat userLng : float) (p : Point.t) : float :=
  calculateDistance userLat userLng (Point.lat p) (Point.lng p).

(** Lines 304-314 of the callback: the speed in km/h from the previous fix,
    [now] being the reading of [Date.now()] in [timeDiff]. *)
Definition estimateSpeed (lastPosition : option LastPosition.t)
    (newLocation : Location.t) (now : float) : float :=
  match lastPosition with
  | Some last =>
      let distance :=
        calculateDistance
          (LastPosition.lat last) (LastPosition.lng last)
          (Location.lat newLocation) (Location.lng newLocation) in
      let timeDiff := (now - LastPosition.time last) / 1000 in
      (distance / timeDiff) * 3.6
  | None => 0
  end.

(** One run of the [watchPosition] success callback on the state committed
    by the previous run.  [now1] and [now2] are the two readings of
    [Date.now()], in program order. *)
Definition onPosition (points : list Point.t) (speedLimit : float)
    (st : TrackerState) (latitude longitude now1 now2 : float) : Run :=
  let newLocation := {| Location.lat := latitude; Location.lng := longitude |} in
  let userSpeed := estimateSpeed (lastPosition st) newLocation now1 in
  {| nextState :=
       {| userLocation := Some newLocation;
          lastPosition :=
            Some {| LastPosition.lat := Location.lat newLocation;
                    LastPosition.lng := Location.lng newLocation;
                    LastPosition.time := now2 |} |};
     userSpeed := userSpeed;
     effects :=
       SpeedUpdate (toFixed userSpeed 1)
         :: SetView latitude longitude 18
         :: map ProximityAlert
              (checkProximityAndSpeed points speedLimit latitude longitude
                 userSpeed) |}.

(** The callback run on a sequence of fixes [(latitude, longitude, now1,
    now2)]: the final state and the [userSpeed] of every run. *)
Fixpoint track (points : list Point.t) (speedLimit : float)
    (st : TrackerState) (fixes : list (float * float * float * float))
  : TrackerState * list float :=
  match fixes with
  | [] => (st, [])
  | (latitude, longitude, now1, now2) :: rest =>
      let run := onPosition points speedLimit st latitude longitude now1 now2 in
      let (st', speeds) := track points speedLimit (nextState run) rest in
      (st', userSpeed run :: speeds)
  end.

(** For the statements: what the loop of [checkProximityAndSpeed] has
    established after the points [seen]. *)
Definition selected (userLat userLng : float) (seen : list Point.t)
    (acc : option Nearest * float) : Prop :=
  match fst acc with
  | None =>
      snd acc = Infinity /\
      forall p, In p seen -> (distanceTo userLat userLng p <=? 10) = false
  | Some np =>
      snd acc = distance np /\
      distance np = distanceTo userLat userLng (point np) /\
      (distanceTo userLat userLng (point np) <=? 10) = true /\
      (forall p, In p seen -> (distanceTo userLat userLng p <=? 10) = true ->
         (distanceTo userLat userLng (point np) <=? distanceTo userLat userLng p)
         = true) /\
      exists before after,
        seen = before ++ point np :: after /\
        forall p, In p before ->
          (distanceTo userLat userLng p <=? 10) = true ->
          (distanceTo userLat userLng (point np) <? distanceTo userLat userLng p)
          = true
  end.

(** For the statements: [timeDiff] and [distance] of a run that has a
    previous fix. *)
Definition timeDiff (last : LastPosition.t) (now : float) : float :=
  (now - LastPosition.time last) / 1000.

Definition distanceFrom (last : LastPosition.t) (latitude longitude : float)
  : float :=
  calculateDistance (LastPosition.lat last) (LastPosition.lng last)
    latitude longitude.

(** For the statements: every run of a sequence of fixes that has a previous
    fix sees a positive finite [timeDiff] and a distance that is at least
    0. *)
Fixpoint forwardInTime (st : TrackerState)
    (fixes : list (float * float * float * float)) : Prop :=
  match fixes with
  | [] => True
  | (latitude, longitude, now1, now2) :: rest =>
      match lastPosition st with
      | Some last =>
          (0 <? timeDiff last now1) = true /\
          (timeDiff last now1 <? Infinity) = true /\
          (0 <=? distanceFrom last latitude longitude) = true
      | None => True
      end /\
      forwardInTime
        {| userLocation :=
             Some {| Location.lat := latitude; Location.lng := longitude |};
           lastPosition :=
             Some {| LastPosition.lat := latitude;
                     LastPosition.lng := longitude;
                     LastPosition.time := now2 |} |}
        rest
  end.

End WithHost.
End SpeedVariant.

(** ** The rest of the components *)

(** The [watchPosition] callback of the proximity-only revision. *)
Module ProximityOnlyTracker.

Inductive Effect :=
| SetView (latitude longitude : float) (zoom : Z)
| ProximityAlert (alertInfo : Alert.t).

(** One run of the callback: the [userLocation] it commits and its effects. *)
Record Run := {
  userLocation : option Location.t;
  effects : list Effect;
}.

Section WithHost.

Context {host : Host}.

Definition onPosition (points : list Point.t) (latitude longitude : float) : Run :=
  let newLocation := {| Location.lat := latitude; Location.lng := longitude |} in
  {| userLocation := Some newLocation;
     effects :=
       SetView latitude longitude 18
         :: map ProximityAlert
              (ProximityOnly.checkProximity points latitude longitude) |}.

End WithHost.
End ProximityOnlyTracker.

(** [App]: the [alert] cell with [handleProximityAlert], the same in both
    revisions, and the alert banner of each revision. *)
Module App.

(** The [alert] cell and the number of [setTimeout] callbacks still to run. *)
Record State := {
  alert : option Alert.t;
  timers : nat;
}.

(** [useState(null)], no timer armed. *)
Definition initial : State := {| alert := None; timers := 0 |}.

(** [setAlert(alertInfo); setTimeout(() => setAlert(null), 5000)]. *)
Definition handleProximityAlert (alertInfo : Alert.t) (st : State) : State :=
  {| alert := Some alertInfo; timers := S (timers st) |}.

(** One armed callback runs: [setAlert(null)]. *)
Definition timerFires (st : State) : State :=
  {| alert := None; timers := pred (timers st) |}.

(** What can happen to the cell: an alert comes in, or an armed callback
    runs. *)
Inductive Step : State -> State -> Prop :=
| StepAlert (alertInfo : Alert.t) (st : State) :
    Step st (handleProximityAlert alertInfo st)
| StepTimer (st : State) :
    (0 < timers st)%nat -> Step st (timerFires st).

Inductive Reachable : State -> Prop :=
| ReachInitial : Reachable initial
| ReachStep (st st' : State) : Reachable st -> Step st st' -> Reachable st'.

Section WithHost.

Context {host : Host}.

(** The banner of the proximity-only revision, shown when [alert] is not
    null: its [backgroundColor] and its text. *)
Definition backgroundColor1 (alert : Alert.t) : string :=
  if String.eqb (Alert.type alert) "CCTV" then "#ffeb3b" else "#ff9800".

Definition bannerText1 (alert : Alert.t) : string :=
  ("⚠️ " ++ Alert.type alert ++ " Ahead: " ++ Alert.name alert ++ " (" ++
   Number_toString (Alert.distance alert) ++ "m away)")%string.

(** The banner of the speed revision. *)
Definition backgroundColor (alert : Alert.t) : string :=
  if String.eqb (Alert.type alert) "CCTV" then "#ffeb3b"
  else if String.eqb (Alert.type alert) "Speed Alert" then "#f44336"
  else "#ff9800".

(** [alert.distance > 0 ? `(${alert.distance}m away)` : '']. *)
Definition distanceSuffix (alert : Alert.t) : string :=
  if 0 <? Alert.distance alert then
    ("(" ++ Number_toString (Alert.distance alert) ++ "m away)")%string
  else "".

Definition bannerText (alert : Alert.t) : string :=
  ("⚠️ " ++ Alert.type alert ++ ": " ++ Alert.name alert ++ " " ++
   distanceSuffix alert)%string.

End WithHost.
End App.

(** ** A host to run the program on *)

(** One implementation of [Host], from the primitive operations alone: power
    series for the trigonometric functions, the processor's square root,
    [exp (y * ln x)] for powers with a fractional exponent, and the shortest
    digits for [Number::toString].  It returns what ECMA-262 prescribes wherever
    ECMA-262 prescribes a result; elsewhere it is one approximation among
    those the standard allows.  It is used to run the program on concrete
    fixes; no theorem on the program depends on it. *)
Module RefHost.

Definition half_pi : float := Math_PI / 2.
Definition ln2 : float := 0.6931471805599453.

(** [n] more terms of [acc + term * (- x2 / (k (k + 1))) + ...]. *)
Fixpoint alternating (n : nat) (k x2 term acc : float) : float :=
  match n with
  | O => acc
  | S n' =>
      let term' := - (term * x2) / (k * (k + 1)) in
      alternating n' (k + 2) x2 term' (acc + term')
  end.

(** The integer a number is, if it is one. *)
Definition integral_value (x : float) : option Z :=
  match Prim2SF x with
  | S754_zero _ => Some 0%Z
  | S754_finite s m e =>
      if (0 <=? e)%Z then Some (signed_mantissa s m * 2 ^ e)%Z
      else if (Z.pos m mod 2 ^ (- e) =? 0)%Z
           then Some (signed_mantissa s m / 2 ^ (- e))%Z
           else None
  | _ => None
  end.

(** [x = k * (pi / 2) + r] with [|r| <= pi / 4]: the quadrant [k mod 4] and
    [r]. *)
Definition reduce (x : float) : Z * float :=
  let k := Math_round (x / half_pi) in
  match integral_value k with
  | Some q => ((q mod 4)%Z, x - k * half_pi)
  | None => (0%Z, nan)
  end.

Definition sin_series (r : float) : float := alternating 12 2 (r * r) r r.
Definition cos_series (r : float) : float := alternating 12 1 (r * r) 1 1.

Definition sin (x : float) : float :=
  if is_zero x then x
  else
    let (q, r) := reduce x in
    match q with
    | 0%Z => sin_series r
    | 1%Z => cos_series r
    | 2%Z => - sin_series r
    | _ => - cos_series r
    end.

Definition cos (x : float) : float :=
  let (q, r) := reduce x in
  match q with
  | 0%Z => cos_series r
  | 1%Z => - sin_series r
  | 2%Z => - cos_series r
  | _ => sin_series r
  end.

(** [n] more terms of [acc - pow * x2 / k + ...]. *)
Fixpoint odd_series (n : nat) (k x2 pow acc : float) : float :=
  match n with
  | O => acc
  | S n' =>
      let pow' := - (pow * x2) in
      odd_series n' (k + 2) x2 pow' (acc + pow' / k)
  end.

(** [tan (t / 2)] from [tan t]. *)
Definition halve_angle (z : float) : float := z / (1 + sqrt (1 + z * z)).

(** The arc tangent of [z] for [|z| <= 1]. *)
Definition atan_unit (z : float) : float :=
  if is_zero z then z
  else let r := halve_angle (halve_angle z) in
       4 * odd_series 14 3 (r * r) r r.

Definition atan (z : float) : float :=
  if is_nan z then nan
  else if 1 <? abs z then
    let t := Math_PI / 2 - atan_unit (1 / abs z) in
    if z <? 0 then - t else t
  else atan_unit z.

Definition atan2 (y x : float) : float :=
  if is_nan y || is_nan x then nan
  else if is_zero y then
    if get_sign x then (if get_sign y then - Math_PI else Math_PI) else y
  else if is_zero x then
    if y <? 0 then - (Math_PI / 2) else Math_PI / 2
  else if is_infinity y && is_infinity x then
    let q := if x <? 0 then 3 * Math_PI / 4 else Math_PI / 4 in
    if y <? 0 then - q else q
  else
    let t := atan (y / x) in
    if 0 <? x then t else if 0 <? y then t + Math_PI else t - Math_PI.

(** The Number of an integer. *)
Definition of_integer (n : Z) : float :=
  if (n <? 0)%Z then - of_nonneg_Z (- n) else of_nonneg_Z n.

Fixpoint power (base : float) (n : positive) : float :=
  match n with
  | xH => base
  | xO p => let h := power base p in h * h
  | xI p => let h := power base p in base * (h * h)
  end.

(** The natural logarithm of a positive finite number. *)
Definition ln (x : float) : float :=
  let (m, e) := Z.frexp x in
  let (m, e) := if m <? 0.7071067811865476 then (2 * m, (e - 1)%Z) else (m, e) in
  let u := (m - 1) / (m + 1) in
  of_integer e * ln2 + 2 * odd_series 14 3 (- (u * u)) u u.

Fixpoint exp_series (n : nat) (i r term acc : float) : float :=
  match n with
  | O => acc
  | S n' =>
      let term' := term * r / i in
      exp_series n' (i + 1) r term' (acc + term')
  end.

Definition exp (t : float) : float :=
  let k := Math_round (t / ln2) in
  match integral_value k with
  | Some e => Z.ldexp (exp_series 20 1 (t - k * ln2) 1 1) e
  | None => if t <? 0 then 0 else t
  end.

(** [Number::exponentiate] (ECMA-262 6.1.6.1.3). *)
Definition exponentiate (base exponent : float) : float :=
  if is_nan exponent then nan
  else if is_zero exponent then 1
  else if is_nan base then nan
  else
    match integral_value exponent with
    | Some (Z.pos n) => power base n
    | Some (Z.neg n) => 1 / power base n
    | _ =>
        if is_infinity exponent then
          if abs base =? 1 then nan
          else if Bool.eqb (1 <? abs base) (0 <? exponent) then infinity
               else 0
        else if is_zero base || is_infinity base then
          if Bool.eqb (is_infinity base) (0 <? exponent) then infinity else 0
        else if base <? 0 then nan
        else exp (exponent * ln base)
    end.

(** The integers [s] with [lo <= s * 10^P <= hi], the bounds being [alo *
    2^E] and [ahi * 2^E] and belonging to the interval when [closed]: the one
    closest to [av * 2^E], if there is one above 0. *)
Definition candidate (closed : bool) (alo av ahi E P : Z) : option Z :=
  let scale := (2 ^ Z.max E 0 * 10 ^ Z.max (- P) 0)%Z in
  let den := (2 ^ Z.max (- E) 0 * 10 ^ Z.max P 0)%Z in
  let ceil a := (- ((- a) / den))%Z in
  let smin := if closed then ceil (alo * scale)%Z
              else (alo * scale / den + 1)%Z in
  let smax := if closed then (ahi * scale / den)%Z
              else (ceil (ahi * scale)%Z - 1)%Z in
  let smin := Z.max 1 smin in
  if (smin <=? smax)%Z then
    Some (Z.max smin (Z.min smax ((2 * av * scale + den) / (2 * den))))%Z
  else None.

(** The largest [P] at or below the given one that has a candidate. *)
Fixpoint shortest (fuel : nat) (closed : bool) (alo av ahi E P : Z) : Z * Z :=
  match fuel with
  | O => (0, 0)%Z
  | S fuel' =>
      match candidate closed alo av ahi E P with
      | Some s => (s, P)
      | None => shortest fuel' closed alo av ahi E (P - 1)
      end
  end.

(** Steps 6-10 of [Number::toString]: the digits [s] at the decimal exponent
    [P]. *)
Definition format (s P : Z) : string :=
  let ds := digits s in
  let k := String.length ds in
  let n := (P + Z.of_nat k)%Z in
  if (Z.of_nat k <=? n)%Z && (n <=? 21)%Z then
    (ds ++ zeros (Z.to_nat n - k))%string
  else if (0 <? n)%Z && (n <=? 21)%Z then
    (substring 0 (Z.to_nat n) ds ++ "." ++
     substring (Z.to_nat n) (k - Z.to_nat n) ds)%string
  else if (-6 <? n)%Z && (n <=? 0)%Z then
    ("0." ++ zeros (Z.to_nat (- n)) ++ ds)%string
  else
    let e := (n - 1)%Z in
    let es := ((if (e <? 0)%Z then "-" else "+") ++ digits (Z.abs e))%string in
    if (k =? 1)%nat then (ds ++ "e" ++ es)%string
    else (substring 0 1 ds ++ "." ++ substring 1 (k - 1) ds ++ "e" ++ es)%string.

Definition toString (x : float) : string :=
  match Prim2SF x with
  | S754_nan => "NaN"
  | S754_zero _ => "0"
  | S754_infinity s => if s then "-Infinity" else "Infinity"
  | S754_finite s m e =>
      let alo := if (Z.pos m =? 2 ^ 52)%Z && (-1074 <? e)%Z
                 then (4 * Z.pos m - 1)%Z else (4 * Z.pos m - 2)%Z in
      let P0 := ((e + 53) * 30103 / 100000 + 1)%Z in
      let (d, P) := shortest 400 (Z.even (Z.pos m)) alo (4 * Z.pos m)%Z
                      (4 * Z.pos m + 2)%Z (e - 2)%Z P0 in
      ((if s then "-" else "") ++ format d P)%string
  end.

#[export] Instance host : Host := {|
  Math_sin := sin;
  Math_cos := cos;
  Math_sqrt := sqrt;
  Math_atan2 := atan2;
  Number_exponentiate := exponentiate;
  Number_toString := toString;
|}.

End RefHost.

(** ** Fixes and points used to run the program *)

Module Examples.

(** A fix at "Lipton Camera-2". *)
Definition fixLat : float := 30.8600959.
Definition fixLng : float := 75.8610409.

(** A reading of [Date.now()]. *)
Definition clock : float := 1700000000000.

(** About 8 m north of the fix. *)
Definition eightMetres : Point.t :=
  {| Point.name := "Gate Speed Breaker"; Point.type := "Speed Breaker";
     Point.lat := 30.8601679; Point.lng := 75.8610409 |}.

(** About 5 m north of the fix. *)
Definition fiveMetres : Point.t :=
  {| Point.name := "Gate Camera"; Point.type := "CCTV";
     Point.lat := 30.8601409; Point.lng := 75.8610409 |}.

(** A second point at the coordinates of [fiveMetres]. *)
Definition fiveMetresAgain : Point.t :=
  {| Point.name := "Gate Camera (spare)"; Point.type := "CCTV";
     Point.lat := 30.8601409; Point.lng := 75.8610409 |}.

(** About 297 m from the fix. *)
Definition hostelCamera : Point.t :=
  {| Point.name := "Hostel Camera-1"; Point.type := "CCTV";
     Point.lat := 30.8627650; Point.lng := 75.8607660 |}.

Definition gatePoints : list Point.t :=
  [hostelCamera; eightMetres; fiveMetres; fiveMetresAgain].

(** The previous fix: the same place, stored at [clock]. *)
Definition atCamera : LastPosition.t :=
  {| LastPosition.lat := fixLat; LastPosition.lng := fixLng;
     LastPosition.time := clock |}.

Definition trackingAtCamera : SpeedVariant.TrackerState :=
  {| SpeedVariant.userLocation :=
       Some {| Location.lat := fixLat; Location.lng := fixLng |};
     SpeedVariant.lastPosition := Some atCamera |}.

(** Two fixes at the same place within one millisecond. *)
Definition sameMillisecond : list (float * float * float * float) :=
  [ (fixLat, fixLng, clock, clock); (fixLat, fixLng, clock, clock) ].

(** A fix, then one about 100 m north 36 s later. *)
Definition walkNorth : list (float * float * float * float) :=
  [ (fixLat, fixLng, clock, clock);
    (30.8609959, fixLng, 1700000036000, 1700000036000) ].

End Examples.

(** * Properties *)

(** ** The order of binary64 numbers *)

Module FloatOrder.

Ltac sf_signs :=
  repeat match goal with
         | s : bool |- _ => destruct s
         end.

Ltac sf_compare :=
  cbn [SFltb SFleb SFeqb SFcompare] in *;
  change (Pos.compare_cont Eq) with Pos.compare in *;
  repeat match goal with
         | H : context [Z.compare ?a ?b] |- _ =>
             destruct (Z.compare_spec a b); cbn in *
         | |- context [Z.compare ?a ?b] =>
             destruct (Z.compare_spec a b); cbn in *
         | H : context [Pos.compare ?a ?b] |- _ =>
             destruct (Pos.compare_spec a b); cbn in *
         | |- context [Pos.compare ?a ?b] =>
             destruct (Pos.compare_spec a b); cbn in *
         end;
  try congruence; try lia.

(** Case analysis on the specification of a comparison. *)
Ltac sf_order :=
  unfold SFltb, SFleb, SFeqb;
  intros;
  repeat match goal with
         | x : spec_float |- _ => destruct x
         end;
  sf_signs; sf_compare.

Lemma SFltb_trans x y z :
  SFltb x y = true -> SFltb y z = true -> SFltb x z = true.
Proof. sf_order. Qed.

Lemma SFleb_ltb_trans x y z :
  SFleb x y = true -> SFltb y z = true -> SFltb x z = true.
Proof. sf_order. Qed.

Lemma SFltb_leb_trans x y z :
  SFltb x y = true -> SFleb y z = true -> SFltb x z = true.
Proof. sf_order. Qed.

Lemma SFleb_trans x y z :
  SFleb x y = true -> SFleb y z = true -> SFleb x z = true.
Proof. sf_order. Qed.

Lemma SFltb_leb x y : SFltb x y = true -> SFleb x y = true.
Proof. sf_order. Qed.

Lemma SFltb_irrefl x : SFltb x x = false.
Proof. sf_order. Qed.

Lemma SFltb_asym x y : SFltb x y = true -> SFltb y x = false.
Proof. sf_order. Qed.

Lemma SFleb_refl x : SFeqb x x = true -> SFleb x x = true.
Proof. sf_order. Qed.

Lemma SFleb_ordered_l x y : SFleb x y = true -> SFeqb x x = true.
Proof. sf_order. Qed.

Lemma SFleb_ordered_r x y : SFleb x y = true -> SFeqb y y = true.
Proof. sf_order. Qed.

(** On numbers that are not NaN the order is total. *)
Lemma SFleb_total x y :
  SFeqb x x = true -> SFeqb y y = true ->
  SFltb x y = false -> SFleb y x = true.
Proof. sf_order. Qed.

Lemma SFleb_not_ltb x y : SFleb x y = true -> SFltb y x = false.
Proof. sf_order. Qed.

Lemma SFleb_antisym x y :
  SFleb x y = true -> SFleb y x = true -> SFeqb x y = true.
Proof. sf_order. Qed.

Lemma SFeqb_leb x y : SFeqb x y = true -> SFleb x y = true.
Proof. sf_order. Qed.

Lemma SFltb_not_eqb x y : SFltb x y = true -> SFeqb y x = false.
Proof. sf_order. Qed.

Lemma SFleb_cases x y :
  SFleb x y = true -> SFeqb x y = true \/ SFltb x y = true.
Proof. sf_order; auto. Qed.

#[local] Open Scope float_scope.

(** Moves a statement on primitive comparisons to their specification. *)
Ltac to_spec :=
  unfold is_nan in *;
  rewrite ?negb_false_iff, ?negb_true_iff in *;
  rewrite ?ltb_spec, ?leb_spec, ?eqb_spec in *.

Lemma ltb_trans x y z : (x <? y) = true -> (y <? z) = true -> (x <? z) = true.
Proof. to_spec. apply SFltb_trans. Qed.

Lemma leb_ltb_trans x y z : (x <=? y) = true -> (y <? z) = true -> (x <? z) = true.
Proof. to_spec. apply SFleb_ltb_trans. Qed.

Lemma ltb_leb_trans x y z : (x <? y) = true -> (y <=? z) = true -> (x <? z) = true.
Proof. to_spec. apply SFltb_leb_trans. Qed.

Lemma leb_trans x y z : (x <=? y) = true -> (y <=? z) = true -> (x <=? z) = true.
Proof. to_spec. apply SFleb_trans. Qed.

Lemma ltb_leb x y : (x <? y) = true -> (x <=? y) = true.
Proof. to_spec. apply SFltb_leb. Qed.

Lemma ltb_irrefl x : (x <? x) = false.
Proof. to_spec. apply SFltb_irrefl. Qed.

Lemma leb_not_nan_l x y : (x <=? y) = true -> is_nan x = false.
Proof. to_spec. apply SFleb_ordered_l. Qed.

Lemma leb_not_nan_r x y : (x <=? y) = true -> is_nan y = false.
Proof. to_spec. apply SFleb_ordered_r. Qed.

Lemma leb_refl x : is_nan x = false -> (x <=? x) = true.
Proof. to_spec. apply SFleb_refl. Qed.

Lemma leb_total x y :
  is_nan x = false -> is_nan y = false -> (x <? y) = false -> (y <=? x) = true.
Proof. to_spec. apply SFleb_total. Qed.

Lemma leb_not_ltb x y : (x <=? y) = true -> (y <? x) = false.
Proof. to_spec. apply SFleb_not_ltb. Qed.

Lemma ltb_not_eqb x y : (x <? y) = true -> (y =? x) = false.
Proof. to_spec. apply SFltb_not_eqb. Qed.

Lemma leb_cases x y :
  (x <=? y) = true -> (x =? y) = true \/ (x <? y) = true.
Proof. to_spec. apply SFleb_cases. Qed.

(** Whatever is at most 10 is below [Infinity]. *)
Lemma leb_10_ltb_Infinity x : (x <=? 10) = true -> (x <? Infinity) = true.
Proof.
  intros H. apply (leb_ltb_trans x 10 Infinity H). reflexivity.
Qed.

End FloatOrder.

(** ** Signs of rounded results *)

Module Rounding.

Import FloatOrder.

Lemma shr_1_nonneg mrs : (0 <= shr_m mrs)%Z -> (0 <= shr_m (shr_1 mrs))%Z.
Proof.
  destruct mrs as [m r s]; destruct m as [|[p|p|]|[p|p|]]; cbn; lia.
Qed.

Lemma iter_shr_1_nonneg p :
  forall mrs, (0 <= shr_m mrs)%Z -> (0 <= shr_m (iter_pos shr_1 p mrs))%Z.
Proof.
  induction p as [p IH|p IH|]; intros mrs H; cbn.
  - apply IH, IH, shr_1_nonneg, H.
  - apply IH, IH, H.
  - apply shr_1_nonneg, H.
Qed.

Lemma shr_fexp_nonneg m e l :
  (0 <= m)%Z -> (0 <= shr_m (fst (shr_fexp prec emax m e l)))%Z.
Proof.
  intros H. unfold shr_fexp, shr.
  assert (H0 : (0 <= shr_m (shr_record_of_loc m l))%Z)
    by (destruct l as [|[| |]]; exact H).
  destruct (fexp prec emax (Zdigits2 m + e) - e)%Z; cbn [fst]; auto.
  apply iter_shr_1_nonneg, H0.
Qed.

Lemma round_nearest_even_nonneg m l :
  (0 <= m)%Z -> (0 <= round_nearest_even m l)%Z.
Proof.
  intros H. destruct l as [|[| |]]; cbn; try destruct (Z.even m); lia.
Qed.

(** Rounding a non-negative mantissa gives a number of the requested sign,
    never NaN. *)
Lemma binary_round_aux_sign sx mx ex lx :
  (0 <= mx)%Z -> SFsign (binary_round_aux prec emax sx mx ex lx) = Some sx.
Proof.
  intros H. unfold binary_round_aux.
  pose proof (shr_fexp_nonneg mx ex lx H) as H1.
  destruct (shr_fexp prec emax mx ex lx) as [mrs' e'].
  cbn [fst] in H1.
  pose proof (shr_fexp_nonneg _ e' loc_Exact
                (round_nearest_even_nonneg _ (loc_of_shr_record mrs') H1)) as H2.
  destruct (shr_fexp prec emax _ e' loc_Exact) as [mrs'' e''].
  cbn [fst] in H2.
  destruct (shr_m mrs'') as [|m|m]; try lia.
  - reflexivity.
  - destruct (e'' <=? emax - prec)%Z; reflexivity.
Qed.

Lemma binary_normalize_sign n e :
  (0 <= n)%Z -> SFsign (binary_normalize prec emax n e false) = Some false.
Proof.
  intros H. destruct n as [|p|p]; try lia.
  - reflexivity.
  - cbn [binary_normalize]. unfold binary_round.
    destruct (shl_align _ _ _) as [mz ez].
    apply binary_round_aux_sign. lia.
Qed.

Lemma SFdiv_core_nonneg m1 e1 m2 e2 :
  (0 <= fst (fst (SFdiv_core_binary prec emax (Z.pos m1) e1 (Z.pos m2) e2)))%Z.
Proof.
  unfold SFdiv_core_binary.
  set (s := (e1 - e2 - _)%Z).
  set (m' := match s with Z0 => Z.pos m1 | Z.pos _ => Z.shiftl (Z.pos m1) s
                     | Z.neg _ => 0%Z end).
  assert (Hm : (0 <= m')%Z).
  { subst m'. destruct s; try lia. apply Z.shiftl_nonneg. lia. }
  pose proof (Z_div_mod m' (Z.pos m2) eq_refl) as H.
  destruct (Z.div_eucl m' (Z.pos m2)) as [q r]. cbn [fst]. nia.
Qed.

(** A product or quotient of numbers that are not NaN is NaN or has the
    exclusive or of their signs. *)
Lemma SFmul_sign x y sx sy :
  SFsign x = Some sx -> SFsign y = Some sy ->
  SFmul prec emax x y = S754_nan \/
  SFsign (SFmul prec emax x y) = Some (xorb sx sy).
Proof.
  destruct x as [s|s| |s m e], y as [s'|s'| |s' m' e']; cbn [SFsign SFmul];
    intros [= <-] [= <-]; auto.
  right. apply binary_round_aux_sign. lia.
Qed.

Lemma SFdiv_sign x y sx sy :
  SFsign x = Some sx -> SFsign y = Some sy ->
  SFdiv prec emax x y = S754_nan \/
  SFsign (SFdiv prec emax x y) = Some (xorb sx sy).
Proof.
  destruct x as [s|s| |s m e], y as [s'|s'| |s' m' e']; cbn [SFsign SFdiv];
    intros [= <-] [= <-]; auto.
  right.
  pose proof (SFdiv_core_nonneg m e m' e') as H.
  destruct (SFdiv_core_binary prec emax (Z.pos m) e (Z.pos m') e') as [[mz ez] lz].
  apply binary_round_aux_sign, H.
Qed.

End Rounding.

(** ** The arithmetic of the speed formula *)

Module SpeedFormula.

Import FloatOrder Rounding.

#[local] Open Scope float_scope.

Lemma SFmul_finite_sign x sx sy m e :
  SFsign x = Some sx ->
  SFsign (SFmul prec emax x (S754_finite sy m e)) = Some (xorb sx sy).
Proof.
  destruct x as [s|s| |s m' e']; cbn [SFsign SFmul]; intros [= <-]; auto.
  apply binary_round_aux_sign. lia.
Qed.

Lemma SFdiv_finite_sign x sx sy m e :
  SFsign x = Some sx ->
  SFsign (SFdiv prec emax x (S754_finite sy m e)) = Some (xorb sx sy).
Proof.
  intros H.
  destruct (SFdiv_sign x (S754_finite sy m e) sx sy H eq_refl) as [E|E]; auto.
  destruct x as [s|s| |s m' e']; cbn [SFdiv] in E; try discriminate.
  pose proof (SFdiv_core_nonneg m' e' m e) as Hq.
  destruct (SFdiv_core_binary prec emax (Z.pos m') e' (Z.pos m) e) as [[mz ez] lz].
  pose proof (binary_round_aux_sign (xorb s sy) mz ez lz Hq) as Hs.
  rewrite E in Hs. discriminate.
Qed.

Lemma SFsign_nonneg x :
  SFsign x = Some false -> SFleb (S754_zero false) x = true.
Proof. destruct x as [s|s| |s m e]; cbn; intros [= ->]; reflexivity. Qed.

Lemma SFsign_not_pos x :
  SFsign x = Some true -> SFltb (S754_zero false) x = false.
Proof. destruct x as [s|s| |s m e]; cbn; intros [= ->]; reflexivity. Qed.

Lemma SFnonneg_cases x :
  SFleb (S754_zero false) x = true ->
  (exists s, x = S754_zero s) \/ SFsign x = Some false.
Proof.
  destruct x as [s|s| |s m e]; cbn; try discriminate; eauto;
    destruct s; try discriminate; auto.
Qed.

Lemma SFpos_finite_cases x :
  SFltb (S754_zero false) x = true ->
  SFltb x (S754_infinity false) = true ->
  exists m e, x = S754_finite false m e.
Proof.
  destruct x as [s|s| |s m e]; cbn; try discriminate;
    destruct s; try discriminate; eauto.
Qed.

Lemma SFneg_cases x :
  SFltb x (S754_zero false) = true -> SFsign x = Some true.
Proof.
  destruct x as [s|s| |s m e]; cbn; try discriminate;
    destruct s; try discriminate; auto.
Qed.

Lemma SFzero_cases x :
  SFeqb x (S754_zero false) = true -> exists s, x = S754_zero s.
Proof.
  destruct x as [s|s| |s m e]; cbn; try discriminate; eauto;
    destruct s; discriminate.
Qed.

(** [is_finite] read on the specification. *)
Lemma is_finite_spec x :
  is_finite x =
  match Prim2SF x with
  | S754_zero _ | S754_finite _ _ _ => true
  | _ => false
  end.
Proof.
  unfold is_finite, is_nan, is_infinity.
  rewrite !eqb_spec, abs_spec.
  change (Prim2SF infinity) with (S754_infinity false).
  destruct (Prim2SF x) as [s|s| |s m e]; unfold SFeqb; try destruct s; cbn;
    try reflexivity;
    change (PosDef.Pos.compare_cont Eq m m) with (Pos.compare m m);
    rewrite Z.compare_refl, Pos.compare_refl; reflexivity.
Qed.

(** With an elapsed time that is a zero, the formula gives NaN or an
    infinity. *)
Lemma zero_elapsed d t :
  (t =? 0) = true -> is_finite (d / t * 3.6) = false.
Proof.
  rewrite eqb_spec, is_finite_spec, mul_spec, div_spec.
  unfold SF64mul, SF64div.
  change (Prim2SF 0) with (S754_zero false).
  change (Prim2SF 3.6) with (S754_finite false 8106479329266893 (-51)).
  intros H. destruct (SFzero_cases _ H) as [s ->].
  destruct (Prim2SF d) as [s'|s'| |s' m e]; reflexivity.
Qed.

(** What is not finite is not 0. *)
Lemma not_finite_not_zero x : is_finite x = false -> (x =? 0) = false.
Proof.
  rewrite is_finite_spec, eqb_spec.
  change (Prim2SF 0) with (S754_zero false).
  destruct (Prim2SF x) as [s|s| |s m e]; try discriminate; intros _;
    try destruct s; reflexivity.
Qed.

(** With a negative elapsed time and a distance that is at least 0, the
    formula gives nothing above 0. *)
Lemma negative_elapsed d t :
  (0 <=? d) = true -> (t <? 0) = true -> (0 <? d / t * 3.6) = false.
Proof.
  rewrite leb_spec, !ltb_spec, mul_spec, div_spec.
  unfold SF64mul, SF64div.
  change (Prim2SF 0) with (S754_zero false).
  change (Prim2SF 3.6) with (S754_finite false 8106479329266893 (-51)).
  intros Hd Ht. apply SFneg_cases in Ht.
  destruct (SFnonneg_cases _ Hd) as [[s ->]|Hs].
  - destruct (Prim2SF t) as [s'|s'| |s' m e]; try discriminate; reflexivity.
  - destruct (SFdiv_sign _ _ _ _ Hs Ht) as [->|Hq]; [reflexivity|].
    apply SFsign_not_pos.
    apply (SFmul_finite_sign _ _ false _ _ Hq).
Qed.

(** With a positive finite elapsed time and a distance that is at least 0,
    the formula gives a number that is at least 0. *)
Lemma positive_elapsed d t :
  (0 <=? d) = true -> (0 <? t) = true -> (t <? infinity) = true ->
  (0 <=? d / t * 3.6) = true.
Proof.
  rewrite !leb_spec, !ltb_spec, mul_spec, div_spec.
  unfold SF64mul, SF64div.
  change (Prim2SF 0) with (S754_zero false).
  change (Prim2SF infinity) with (S754_infinity false).
  change (Prim2SF 3.6) with (S754_finite false 8106479329266893 (-51)).
  intros Hd Ht Hf. destruct (SFpos_finite_cases _ Ht Hf) as (m & e & ->).
  destruct (SFnonneg_cases _ Hd) as [[s ->]|Hs].
  - reflexivity.
  - apply SFsign_nonneg.
    apply (SFmul_finite_sign _ false false), (SFdiv_finite_sign _ false false), Hs.
Qed.

End SpeedFormula.

(** ** [Math.round] below an integral bound *)

Module RoundBound.

Import FloatOrder Rounding.

#[local] Open Scope float_scope.

Lemma digits2_pos_bound m : (Z.pos m < 2 ^ Z.pos (digits2_pos m))%Z.
Proof.
  induction m as [p IH|p IH|]; cbn [digits2_pos].
  - rewrite Pos2Z.inj_succ, Z.pow_succ_r by lia. lia.
  - rewrite Pos2Z.inj_succ, Z.pow_succ_r by lia. lia.
  - reflexivity.
Qed.

(** The mantissa of a number has at most 53 bits. *)
Lemma valid_mantissa_bound s m e :
  valid_binary (S754_finite s m e) = true -> (Z.pos m < 2 ^ 53)%Z.
Proof.
  cbn [SpecFloat.valid_binary]. unfold bounded, canonical_mantissa, fexp.
  intros H. apply andb_true_iff in H. destruct H as [H _].
  apply Z.eqb_eq in H.
  assert (Hd : (Z.pos (digits2_pos m) <= 53)%Z) by (unfold prec in H; lia).
  pose proof (digits2_pos_bound m) as Hm.
  assert ((2 ^ Z.pos (digits2_pos m) <= 2 ^ 53)%Z)
    by (apply Z.pow_le_mono_r; lia).
  lia.
Qed.

Lemma round_half_up_bounds m e N :
  (e < 0)%Z -> (Z.pos m <= N * 2 ^ (- e))%Z ->
  (0 <= round_half_up (Z.pos m) e <= N)%Z.
Proof.
  intros He Hm. unfold round_half_up.
  assert (Hp : (0 < 2 ^ (- e - 1))%Z) by (apply Z.pow_pos_nonneg; lia).
  assert (Hk : (2 ^ (- e) = 2 * 2 ^ (- e - 1))%Z).
  { replace (- e)%Z with (Z.succ (- e - 1)) at 1 by lia.
    apply Z.pow_succ_r. lia. }
  split.
  - apply Z.div_pos; lia.
  - apply Z.lt_succ_r, Z.div_lt_upper_bound; lia.
Qed.

(** What [x <= B] says of the mantissa of [x], for a bound [B = N] with a
    full mantissa [mb] and exponent [eb < 0]. *)
Lemma below_bound_mantissa m e mb eb N :
  (eb < 0)%Z -> (Z.pos mb = N * 2 ^ (- eb))%Z -> (2 ^ 52 <= Z.pos mb)%Z ->
  (Z.pos m < 2 ^ 53)%Z ->
  SFleb (S754_finite false m e) (S754_finite false mb eb) = true ->
  (e < 0)%Z /\ (Z.pos m <= N * 2 ^ (- e))%Z.
Proof.
  intros Heb Hmb Hfull Hm H.
  assert (HN : (0 < N)%Z).
  { assert (0 < 2 ^ (- eb))%Z by (apply Z.pow_pos_nonneg; lia). nia. }
  unfold SFleb in H; cbn [SFcompare] in H.
  change (PosDef.Pos.compare_cont Eq m mb) with (Pos.compare m mb) in H.
  destruct (Z.compare_spec e eb) as [->|Hlt|Hgt]; try discriminate.
  - split; [lia|].
    destruct (Pos.compare_spec m mb); try discriminate; lia.
  - split; [lia|].
    assert (Hpow : (2 ^ (- eb + 1) <= 2 ^ (- e))%Z)
      by (apply Z.pow_le_mono_r; lia).
    rewrite Z.pow_add_r in Hpow by lia.
    change (2 ^ 53)%Z with (2 * 2 ^ 52)%Z in Hm. nia.
Qed.

Section Bound.

Variables (B : float) (N : nat) (mb : positive) (eb : Z).
Hypothesis B_spec : Prim2SF B = S754_finite false mb eb.
Hypothesis eb_neg : (eb < 0)%Z.
Hypothesis mb_value : (Z.pos mb = Z.of_nat N * 2 ^ (- eb))%Z.
Hypothesis mb_full : (2 ^ 52 <= Z.pos mb)%Z.
Hypothesis below :
  forallb (fun k => of_nonneg_Z (Z.of_nat k) <=? B) (seq 0 (S N)) = true.

Lemma Math_round_le_bound x :
  (x <=? B) = true -> (Math_round x <=? B) = true.
Proof.
  intros H. unfold Math_round.
  pose proof (Prim2SF_valid x) as Hv.
  destruct (Prim2SF x) as [s|s| |s m e] eqn:E; try exact H.
  destruct (Z.leb_spec 0 e) as [He|He]; [exact H|].
  destruct s.
  - rewrite leb_spec, opp_spec, B_spec. unfold of_nonneg_Z.
    rewrite of_uint63_spec.
    pose proof (Uint63.to_Z_bounded
                  (Uint63.of_Z (- round_half_up (signed_mantissa true m) e)))
      as [Hn _].
    pose proof (binary_normalize_sign _ 0 Hn) as Hs.
    destruct (binary_normalize prec emax _ 0 false) as [s'|s'| |s' m' e'];
      cbn in Hs; try discriminate; injection Hs as ->; reflexivity.
  - rewrite leb_spec, E, B_spec in H.
    apply valid_mantissa_bound in Hv.
    destruct (below_bound_mantissa m e mb eb (Z.of_nat N)
                eb_neg mb_value mb_full Hv H) as [_ Hm].
    pose proof (round_half_up_bounds m e (Z.of_nat N) He Hm) as Hn.
    cbn [signed_mantissa].
    rewrite forallb_forall in below.
    rewrite <- (Z2Nat.id (round_half_up (Z.pos m) e)) by lia.
    apply below, in_seq. lia.
Qed.

End Bound.

Lemma Math_round_le_10 x : (x <=? 10) = true -> (Math_round x <=? 10) = true.
Proof.
  apply (Math_round_le_bound 10 10 5629499534213120 (-49));
    solve [reflexivity | lia].
Qed.

Lemma Math_round_le_100 x :
  (x <=? 100) = true -> (Math_round x <=? 100) = true.
Proof.
  apply (Math_round_le_bound 100 100 7036874417766400 (-46));
    solve [reflexivity | lia].
Qed.

End RoundBound.

(** ** The scan of [checkProximityAndSpeed] *)

Module Scan.
Section WithHost.

Import FloatOrder SpeedVariant.

#[local] Open Scope float_scope.

Context {host : Host}.
Variables userLat userLng : float.

#[local] Abbreviation dist := (distanceTo userLat userLng).
#[local] Abbreviation selected := (selected userLat userLng).

Lemma findNearest_snoc points p :
  findNearest (points ++ [p]) userLat userLng =
  scanPoint userLat userLng (findNearest points userLat userLng) p.
Proof. unfold findNearest. apply fold_left_app. Qed.

Lemma selected_step seen acc p :
  selected seen acc -> selected (seen ++ [p]) (scanPoint userLat userLng acc p).
Proof.
  unfold selected, scanPoint. fold (dist p).
  destruct acc as [[np|] m]; cbn [fst snd].
  - intros (-> & Hd & Hin & Hmin & before & after & -> & Hfirst).
    rewrite Hd.
    destruct (dist p <=? 10) eqn:Hp; cbn [andb].
    + destruct (dist p <? dist (point np)) eqn:Hlt; cbn [fst snd point distance].
      * repeat split; auto.
        -- intros q Hq Hq10. apply in_app_or in Hq as [Hq|[<-|[]]].
           ++ apply ltb_leb, (ltb_leb_trans _ (dist (point np))); auto.
           ++ apply leb_refl, (leb_not_nan_l _ _ Hp).
        -- exists (before ++ point np :: after), []. split; [reflexivity|].
           intros q Hq Hq10.
           apply (ltb_leb_trans _ (dist (point np))); auto.
      * repeat split; auto.
        -- intros q Hq Hq10. apply in_app_or in Hq as [Hq|[<-|[]]]; auto.
           apply leb_total; auto.
           ++ apply (leb_not_nan_l _ _ Hp).
           ++ apply (leb_not_nan_l _ _ Hin).
        -- exists before, (after ++ [p]). split; auto.
           rewrite <- app_assoc. reflexivity.
    + cbn [fst snd]. repeat split; auto.
      * intros q Hq Hq10. apply in_app_or in Hq as [Hq|[<-|[]]]; auto.
        congruence.
      * exists before, (after ++ [p]). split; auto.
        rewrite <- app_assoc. reflexivity.
  - intros (-> & Hout).
    destruct (dist p <=? 10) eqn:Hp; cbn [andb].
    + rewrite (leb_10_ltb_Infinity _ Hp). cbn [fst snd point distance].
      repeat split; auto.
      * intros q Hq Hq10. apply in_app_or in Hq as [Hq|[<-|[]]].
        -- rewrite (Hout q Hq) in Hq10. discriminate.
        -- apply leb_refl, (leb_not_nan_l _ _ Hp).
      * exists seen, []. split; [reflexivity|].
        intros q Hq Hq10. rewrite (Hout q Hq) in Hq10. discriminate.
    + cbn [fst snd]. split; auto.
      intros q Hq. apply in_app_or in Hq as [Hq|[<-|[]]]; auto.
Qed.

(** The invariant holds when the loop ends. *)
Lemma findNearest_selected points :
  selected points (findNearest points userLat userLng).
Proof.
  induction points as [|p points IH] using rev_ind.
  - cbn. split; [reflexivity|]. intros p [].
  - rewrite findNearest_snoc. apply selected_step, IH.
Qed.

(** A point in range makes the loop end with a point. *)
Lemma findNearest_some points :
  (exists p, In p points /\ (dist p <=? 10) = true) ->
  exists np, fst (findNearest points userLat userLng) = Some np.
Proof.
  intros (p & Hp & Hp10).
  pose proof (findNearest_selected points) as H. unfold selected in H.
  destruct (fst (findNearest points userLat userLng)) as [np|]; eauto.
  destruct H as [_ Hout]. rewrite (Hout p Hp) in Hp10. discriminate.
Qed.

End WithHost.
End Scan.

(** ** The proximity check *)

Section ProximityCheck.

Import FloatOrder.

#[local] Open Scope float_scope.

Context {host : Host}.

(** C1. For every fix and every points sequence with a point within the
    radius (10 m), the loop of [checkProximityAndSpeed] ends with one point
    [q] of the sequence: [q] is in range, no point in range is closer than
    [q], and [q] is strictly closer than every point in range that comes
    before it in the sequence. So no earlier point in range is at the same
    distance as [q]: of several points at the minimum distance the first is
    the one selected. *)
Theorem nearest_point_selected (points : list Point.t) (userLat userLng : float) :
  (exists p, In p points /\
             (SpeedVariant.distanceTo userLat userLng p <=? 10) = true) ->
  exists before q after,
    points = before ++ q :: after /\
    fst (SpeedVariant.findNearest points userLat userLng) =
      Some {| SpeedVariant.point := q;
              SpeedVariant.distance := SpeedVariant.distanceTo userLat userLng q |} /\
    (SpeedVariant.distanceTo userLat userLng q <=? 10) = true /\
    (forall p, In p points ->
       (SpeedVariant.distanceTo userLat userLng p <=? 10) = true ->
       (SpeedVariant.distanceTo userLat userLng q
        <=? SpeedVariant.distanceTo userLat userLng p) = true) /\
    (forall p, In p before ->
       (SpeedVariant.distanceTo userLat userLng p <=? 10) = true ->
       (SpeedVariant.distanceTo userLat userLng q
        <? SpeedVariant.distanceTo userLat userLng p) = true /\
       (SpeedVariant.distanceTo userLat userLng p
        =? SpeedVariant.distanceTo userLat userLng q) = false).
Proof.
  intros Hex.
  destruct (Scan.findNearest_some userLat userLng points Hex) as [np Hnp].
  pose proof (Scan.findNearest_selected userLat userLng points) as H.
  unfold SpeedVariant.selected in H. rewrite Hnp in H.
  destruct H as (_ & Hd & Hin & Hmin & before & after & Hsplit & Hfirst).
  exists before, (SpeedVariant.point np), after.
  rewrite Hnp. destruct np as [q d]; cbn in *. subst d.
  split; [exact Hsplit|]. split; [reflexivity|]. split; [exact Hin|].
  split; [exact Hmin|].
  intros p Hp Hp10. split; [|apply ltb_not_eqb]; auto.
Qed.

(** C2. For every fix for which the loop has selected a point, a point of the
    sequence within 10 m, exactly one alert is raised: the speed alert when
    [userSpeed > speedLimit], and otherwise the proximity alert with the type
    and name of the selected point; both carry the rounded distance, and the
    result never holds both. *)
Theorem one_alert_per_fix (points : list Point.t)
    (speedLimit userLat userLng userSpeed : float) (np : SpeedVariant.Nearest) :
  fst (SpeedVariant.findNearest points userLat userLng) = Some np ->
  In (SpeedVariant.point np) points /\
  (SpeedVariant.distance np <=? 10) = true /\
  ((speedLimit <? userSpeed) = true ->
   SpeedVariant.checkProximityAndSpeed points speedLimit userLat userLng userSpeed =
     [ {| Alert.type := "Speed Alert";
          Alert.name :=
            SpeedVariant.slowDownMessage userSpeed speedLimit
              (Point.name (SpeedVariant.point np));
          Alert.distance := Math_round (SpeedVariant.distance np) |} ]) /\
  ((speedLimit <? userSpeed) = false ->
   SpeedVariant.checkProximityAndSpeed points speedLimit userLat userLng userSpeed =
     [ {| Alert.type := Point.type (SpeedVariant.point np);
          Alert.name := Point.name (SpeedVariant.point np);
          Alert.distance := Math_round (SpeedVariant.distance np) |} ]) /\
  List.length
    (SpeedVariant.checkProximityAndSpeed points speedLimit userLat userLng userSpeed)
  = 1%nat.
Proof.
  intros Hnp.
  pose proof (Scan.findNearest_selected userLat userLng points) as H.
  unfold SpeedVariant.selected in H. rewrite Hnp in H.
  destruct H as (_ & Hd & Hin & _ & before & after & Hsplit & _).
  split; [rewrite Hsplit; apply in_elt|].
  split; [rewrite Hd; exact Hin|].
  unfold SpeedVariant.checkProximityAndSpeed. rewrite Hnp.
  destruct (speedLimit <? userSpeed).
  - split; [reflexivity|]. split; [discriminate|reflexivity].
  - split; [discriminate|]. split; reflexivity.
Qed.

(** C6. With no points, the proximity evaluation of either revision raises
    no alert for any fix, and a run of the callback has no alert among its
    effects. *)
Theorem no_points_no_alert
    (speedLimit userLat userLng userSpeed : float)
    (st : SpeedVariant.TrackerState) (now1 now2 : float) :
  SpeedVariant.checkProximityAndSpeed [] speedLimit userLat userLng userSpeed = [] /\
  ProximityOnly.checkProximity [] userLat userLng = [] /\
  SpeedVariant.effects
    (SpeedVariant.onPosition [] speedLimit st userLat userLng now1 now2) =
    [ SpeedVariant.SpeedUpdate
        (toFixed
           (SpeedVariant.estimateSpeed (SpeedVariant.lastPosition st)
              {| Location.lat := userLat; Location.lng := userLng |} now1) 1);
      SpeedVariant.SetView userLat userLng 18 ].
Proof. repeat split. Qed.

(** C9. In the proximity-only revision the alert is the one of the first
    point of the sequence that is within 100 m, whatever follows it in the
    sequence: a later point, closer or not, is not looked at. *)
Theorem first_point_in_range_alerted (before after : list Point.t)
    (p : Point.t) (userLat userLng : float) :
  (forall q, In q before ->
     (ProximityOnly.distanceTo userLat userLng q <=? 100) = false) ->
  (ProximityOnly.distanceTo userLat userLng p <=? 100) = true ->
  ProximityOnly.checkProximity (before ++ p :: after) userLat userLng =
    [ ProximityOnly.alertFor userLat userLng p ].
Proof.
  intros Hout Hin.
  induction before as [|b before IH]; cbn [app ProximityOnly.checkProximity].
  - fold (ProximityOnly.distanceTo userLat userLng p). rewrite Hin. reflexivity.
  - fold (ProximityOnly.distanceTo userLat userLng b).
    rewrite (Hout b (or_introl eq_refl)).
    apply IH. intros q Hq. apply Hout. right. exact Hq.
Qed.

Lemma checkProximity_alerts (points : list Point.t) (userLat userLng : float) :
  Forall
    (fun a => exists p,
         In p points /\ a = ProximityOnly.alertFor userLat userLng p /\
         (ProximityOnly.distanceTo userLat userLng p <=? 100) = true)
    (ProximityOnly.checkProximity points userLat userLng).
Proof.
  induction points as [|b points IH]; cbn [ProximityOnly.checkProximity].
  - constructor.
  - fold (ProximityOnly.distanceTo userLat userLng b).
    destruct (ProximityOnly.distanceTo userLat userLng b <=? 100) eqn:Hb.
    + constructor; [|constructor]. exists b. cbn. auto.
    + eapply Forall_impl; [|exact IH].
      intros a (p & Hp & Ha & H100). exists p. cbn. auto.
Qed.

(** C10. Every alert raised carries the distance from the fix to a point of
    the sequence, the point the alert names, rounded by [Math.round], and
    that rounded distance is at most the radius of the check: 10 in the
    speed revision, 100 in the proximity-only revision. *)
Theorem alert_distance_rounded_within_radius (points : list Point.t)
    (speedLimit userLat userLng userSpeed : float) :
  Forall
    (fun a => exists p,
         In p points /\
         (Alert.name a = Point.name p \/
          Alert.name a =
            SpeedVariant.slowDownMessage userSpeed speedLimit (Point.name p)) /\
         Alert.distance a = Math_round (SpeedVariant.distanceTo userLat userLng p) /\
         (Alert.distance a <=? 10) = true)
    (SpeedVariant.checkProximityAndSpeed points speedLimit userLat userLng userSpeed)
  /\
  Forall
    (fun a => exists p,
         In p points /\
         Alert.name a = Point.name p /\
         Alert.distance a = Math_round (ProximityOnly.distanceTo userLat userLng p) /\
         (Alert.distance a <=? 100) = true)
    (ProximityOnly.checkProximity points userLat userLng).
Proof.
  split.
  - pose proof (Scan.findNearest_selected userLat userLng points) as H.
    unfold SpeedVariant.selected in H.
    unfold SpeedVariant.checkProximityAndSpeed.
    destruct (fst (SpeedVariant.findNearest points userLat userLng)) as [np|];
      [|constructor].
    destruct H as (_ & Hd & Hin & _ & before & after & Hsplit & _).
    assert (Hp : In (SpeedVariant.point np) points)
      by (rewrite Hsplit; apply in_elt).
    destruct (speedLimit <? userSpeed); (constructor; [|constructor]);
      exists (SpeedVariant.point np); cbn; rewrite Hd;
      repeat split; auto using RoundBound.Math_round_le_10.
  - eapply Forall_impl; [|apply checkProximity_alerts].
    intros a (p & Hp & -> & H100). exists p. cbn.
    repeat split; auto using RoundBound.Math_round_le_100.
Qed.

End ProximityCheck.

(** ** The speed estimate *)

Section SpeedEstimate.

Import SpeedVariant.

#[local] Open Scope float_scope.

Context {host : Host}.

(** [userSpeed] of a run that has a previous fix. *)
Lemma userSpeed_formula points speedLimit st last latitude longitude now1 now2 :
  lastPosition st = Some last ->
  userSpeed (onPosition points speedLimit st latitude longitude now1 now2) =
  distanceFrom last latitude longitude / timeDiff last now1 * 3.6.
Proof. intros H. cbn. rewrite H. reflexivity. Qed.

(** C3, as the code has it. For every run of the callback whose elapsed time
    since the previous fix is zero or negative, the speed is [(distance /
    timeDiff) * 3.6] with no guard: NaN or an infinity, hence not 0, when the
    elapsed time is zero, and nothing above 0 when the elapsed time is
    negative and the distance is at least 0. The previous fix is replaced by
    the new one all the same. *)
Theorem unguarded_elapsed_time (points : list Point.t) (speedLimit : float)
    (st : TrackerState) (last : LastPosition.t)
    (latitude longitude now1 now2 : float) :
  lastPosition st = Some last ->
  (timeDiff last now1 <=? 0) = true ->
  let run := onPosition points speedLimit st latitude longitude now1 now2 in
  userSpeed run = distanceFrom last latitude longitude / timeDiff last now1 * 3.6 /\
  ((timeDiff last now1 =? 0) = true /\
   is_finite (userSpeed run) = false /\ (userSpeed run =? 0) = false
   \/
   (timeDiff last now1 <? 0) = true /\
   ((0 <=? distanceFrom last latitude longitude) = true ->
    (0 <? userSpeed run) = false)) /\
  lastPosition (nextState run) =
    Some {| LastPosition.lat := latitude; LastPosition.lng := longitude;
            LastPosition.time := now2 |}.
Proof.
  intros Hlast Helapsed run. subst run.
  rewrite (userSpeed_formula _ _ _ _ _ _ _ _ Hlast).
  repeat split.
  destruct (FloatOrder.leb_cases _ _ Helapsed) as [Hzero|Hneg]; [left|right].
  - pose proof (SpeedFormula.zero_elapsed
                  (distanceFrom last latitude longitude) _ Hzero) as Hnf.
    auto using SpeedFormula.not_finite_not_zero.
  - split; [exact Hneg|].
    intros Hd. apply SpeedFormula.negative_elapsed; assumption.
Qed.

(** C4. On the first fix of a session (no previous fix stored) the speed is
    exactly 0, hence not NaN, it is shown as ["0.0"], and the fix is stored
    as the previous fix. *)
Theorem first_fix_speed_zero (points : list Point.t) (speedLimit : float)
    (st : TrackerState) (latitude longitude now1 now2 : float) :
  lastPosition st = None ->
  let run := onPosition points speedLimit st latitude longitude now1 now2 in
  userSpeed run = 0 /\
  is_nan (userSpeed run) = false /\
  hd_error (effects run) = Some (SpeedUpdate "0.0") /\
  lastPosition (nextState run) =
    Some {| LastPosition.lat := latitude; LastPosition.lng := longitude;
            LastPosition.time := now2 |}.
Proof.
  intros Hlast run. subst run. cbn. rewrite Hlast. cbn. repeat split.
Qed.

Lemma userSpeed_nonneg points speedLimit st latitude longitude now1 now2 :
  match lastPosition st with
  | Some last =>
      (0 <? timeDiff last now1) = true /\
      (timeDiff last now1 <? Infinity) = true /\
      (0 <=? distanceFrom last latitude longitude) = true
  | None => True
  end ->
  (0 <=? userSpeed (onPosition points speedLimit st latitude longitude now1 now2))
  = true.
Proof.
  destruct (lastPosition st) as [last|] eqn:Hlast.
  - intros (Hpos & Hfin & Hd).
    rewrite (userSpeed_formula _ _ _ _ _ _ _ _ Hlast).
    apply SpeedFormula.positive_elapsed; assumption.
  - intros _. cbn. rewrite Hlast. reflexivity.
Qed.

(** C5, as the code has it. For every sequence of fixes, every speed is at
    least 0 provided that each run with a previous fix sees a positive finite
    elapsed time and a distance that is at least 0. *)
Theorem speed_nonneg_forward_in_time (points : list Point.t) (speedLimit : float)
    (fixes : list (float * float * float * float)) (st : TrackerState) :
  forwardInTime st fixes ->
  Forall (fun v => (0 <=? v) = true) (snd (track points speedLimit st fixes)).
Proof.
  revert st.
  induction fixes as [|[[[latitude longitude] now1] now2] rest IH]; intros st.
  - constructor.
  - cbn [forwardInTime track]. intros [Hrun Hrest].
    specialize (IH _ Hrest). cbn [nextState onPosition Location.lat Location.lng].
    destruct (track points speedLimit _ rest) as [st' speeds].
    cbn [snd] in *. constructor; [|exact IH].
    apply userSpeed_nonneg, Hrun.
Qed.

(** C8. Every run of the callback commits the incoming fix as the previous
    fix, whatever the state it started from, and so does every sequence of
    runs for its last fix. *)
Theorem previous_fix_always_updated (points : list Point.t) (speedLimit : float)
    (st : TrackerState) (fixes : list (float * float * float * float))
    (latitude longitude now1 now2 : float) :
  lastPosition
    (nextState (onPosition points speedLimit st latitude longitude now1 now2)) =
    Some {| LastPosition.lat := latitude; LastPosition.lng := longitude;
            LastPosition.time := now2 |} /\
  lastPosition
    (fst (track points speedLimit st
            (fixes ++ [(latitude, longitude, now1, now2)]))) =
    Some {| LastPosition.lat := latitude; LastPosition.lng := longitude;
            LastPosition.time := now2 |}.
Proof.
  split; [reflexivity|].
  revert st. induction fixes as [|[[[la lo] n1] n2] rest IH]; intros st.
  - reflexivity.
  - cbn [app track]. specialize (IH (nextState (onPosition points speedLimit st la lo n1 n2))).
    destruct (track points speedLimit _ (rest ++ _)) as [st' speeds].
    exact IH.
Qed.

End SpeedEstimate.

(** ** The distance from a point to itself *)

Section DistanceToItself.

Import Rounding.

#[local] Open Scope float_scope.

Context {host : Host}.

Lemma sub_diag x : is_finite x = true -> x - x = 0.
Proof.
  rewrite SpeedFormula.is_finite_spec. intros H.
  apply Prim2SF_inj. rewrite sub_spec.
  change (Prim2SF 0) with (S754_zero false).
  destruct (Prim2SF x) as [s|s| |s m e]; try discriminate.
  - destruct s; reflexivity.
  - unfold SF64sub, SFsub. rewrite Z.sub_diag. reflexivity.
Qed.

Lemma square_times_zero c : is_finite (c * c) = true -> c * c * 0 = 0.
Proof.
  rewrite SpeedFormula.is_finite_spec. intros H.
  apply Prim2SF_inj. rewrite mul_spec.
  change (Prim2SF 0) with (S754_zero false).
  rewrite mul_spec in *. unfold SF64mul in *.
  destruct (Prim2SF c) as [s|s| |s m e]; cbn [SFmul] in *; try discriminate.
  - destruct s; reflexivity.
  - pose proof (binary_round_aux_sign (xorb s s) (Z.pos (m * m)) (e + e)
                  loc_Exact ltac:(lia)) as Hs.
    destruct (binary_round_aux prec emax (xorb s s) (Z.pos (m * m)) (e + e)
                loc_Exact) as [s'|s'| |s' m' e'];
      try discriminate; cbn in Hs; injection Hs as ->; destruct s; reflexivity.
Qed.

(** On a host that returns the values ECMA-262 fixes at [+0], and whose
    cosine of the latitude has a finite square, both revisions give the
    distance 0 from a finite coordinate to itself. *)
Theorem calculateDistance_self (lat lng : float) :
  is_finite lat = true -> is_finite lng = true ->
  fixedAtZero host ->
  is_finite (Math_cos (lat * Math_PI / 180) * Math_cos (lat * Math_PI / 180))
  = true ->
  SpeedVariant.calculateDistance lat lng lat lng = 0 /\
  ProximityOnly.calculateDistance lat lng lat lng = 0.
Proof.
  intros Hlat Hlng (Hsin & Hpow & Hsqrt & Hatan) Hcos.
  assert (Hzero : 0 * Math_PI / 180 / 2 = 0) by reflexivity.
  assert (Hone : 1 - 0 = 1) by reflexivity.
  unfold SpeedVariant.calculateDistance, ProximityOnly.calculateDistance.
  cbv zeta.
  rewrite (sub_diag lat Hlat), (sub_diag lng Hlng), Hzero, Hsin, Hpow.
  rewrite (square_times_zero _ Hcos).
  change (0 + 0) with 0. change (0 * 0) with 0. change (0 + 0) with 0.
  rewrite Hone, Hsqrt, Hatan. split; reflexivity.
Qed.

End DistanceToItself.

(** ** The program run on concrete fixes *)

Section Runs.

Import SpeedVariant Examples.

#[local] Open Scope float_scope.
#[local] Existing Instance RefHost.host.

(** The scenarios of the specification. *)
Example distance_to_itself :
  calculateDistance fixLat fixLng fixLat fixLng = 0 /\
  ProximityOnly.calculateDistance fixLat fixLng fixLat fixLng = 0.
Proof. split; vm_compute; reflexivity. Qed.

Example nearer_of_two_points :
  map Alert.name
    (checkProximityAndSpeed [eightMetres; fiveMetres] App_speedLimit
       fixLat fixLng 3) = ["Gate Camera"%string].
Proof. vm_compute. reflexivity. Qed.

Example speeding_near_point :
  checkProximityAndSpeed fallbackPoints App_speedLimit fixLat fixLng 12 =
  [ {| Alert.type := "Speed Alert";
       Alert.name :=
         "⚠️ SLOW DOWN! Speed: 12.0 km/h (Max: 5 km/h) near Lipton Camera-2";
       Alert.distance := 0 |} ].
Proof. vm_compute. reflexivity. Qed.

Example not_speeding_near_point :
  checkProximityAndSpeed fallbackPoints App_speedLimit fixLat fixLng 3 =
  [ {| Alert.type := "CCTV"; Alert.name := "Lipton Camera-2";
       Alert.distance := 0 |} ].
Proof. vm_compute. reflexivity. Qed.

Example hundred_metres_in_36_seconds :
  match snd (track fallbackPoints App_speedLimit initialState walkNorth) with
  | [first; second] => first = 0 /\ (9.5 <=? second) && (second <=? 10.5) = true
  | _ => False
  end.
Proof. vm_compute. split; reflexivity. Qed.

Example rounded_distances :
  map Alert.distance
    (checkProximityAndSpeed gatePoints App_speedLimit fixLat fixLng 3) = [5] /\
  map Alert.distance (ProximityOnly.checkProximity gatePoints fixLat fixLng) = [8].
Proof. split; vm_compute; reflexivity. Qed.

Example distance_between_two_points :
  calculateDistance 30.8627650 75.8607660 30.8611150 75.8610131 =
  calculateDistance 30.8611150 75.8610131 30.8627650 75.8607660 /\
  (184 <=? calculateDistance 30.8627650 75.8607660 30.8611150 75.8610131)
  && (calculateDistance 30.8627650 75.8607660 30.8611150 75.8610131 <=? 186)
  = true.
Proof. split; vm_compute; reflexivity. Qed.

(** [calculateDistance_self] at the camera. *)
Lemma calculateDistance_self_witness :
  calculateDistance fixLat fixLng fixLat fixLng = 0 /\
  ProximityOnly.calculateDistance fixLat fixLng fixLat fixLng = 0.
Proof.
  apply (calculateDistance_self fixLat fixLng); try reflexivity.
  repeat split; vm_compute; reflexivity.
Defined.

(** Witness of C1: the fix at the camera among [gatePoints]. *)
Lemma nearest_point_selected_witness :
  (exists p, In p gatePoints /\ (distanceTo fixLat fixLng p <=? 10) = true) /\
  exists q,
    fst (findNearest gatePoints fixLat fixLng) =
      Some {| point := q; distance := distanceTo fixLat fixLng q |} /\
    (distanceTo fixLat fixLng q <=? 10) = true.
Proof.
  assert (H : exists p, In p gatePoints /\
                        (distanceTo fixLat fixLng p <=? 10) = true).
  { exists fiveMetres. split; [simpl; auto | vm_compute; reflexivity]. }
  split; [exact H|].
  destruct (nearest_point_selected gatePoints fixLat fixLng H)
    as (before & q & after & _ & Hq & Hq10 & _).
  exists q. split; [exact Hq | exact Hq10].
Defined.

(** On [gatePoints] the first of the two points at 5 m is the one selected. *)
Example first_of_equidistant_points :
  fst (findNearest gatePoints fixLat fixLng) =
  Some {| point := fiveMetres; distance := distanceTo fixLat fixLng fiveMetres |}.
Proof. vm_compute. reflexivity. Qed.

(** Witness of C2: the same fix at 12 km/h. *)
Lemma one_alert_per_fix_witness :
  fst (findNearest gatePoints fixLat fixLng) =
    Some {| point := fiveMetres;
            distance := distanceTo fixLat fixLng fiveMetres |} /\
  List.length (checkProximityAndSpeed gatePoints App_speedLimit fixLat fixLng 12)
  = 1%nat.
Proof.
  assert (H : fst (findNearest gatePoints fixLat fixLng) =
              Some {| point := fiveMetres;
                      distance := distanceTo fixLat fixLng fiveMetres |})
    by (vm_compute; reflexivity).
  split; [exact H|].
  exact (proj2 (proj2 (proj2 (proj2 (one_alert_per_fix gatePoints App_speedLimit
                                       fixLat fixLng 12 _ H))))).
Defined.

(** Witness of C9: the point 8 m away is listed before the ones 5 m away. *)
Lemma first_point_in_range_alerted_witness :
  ProximityOnly.checkProximity gatePoints fixLat fixLng =
  [ ProximityOnly.alertFor fixLat fixLng eightMetres ].
Proof.
  apply (first_point_in_range_alerted [hostelCamera]
           [fiveMetres; fiveMetresAgain] eightMetres fixLat fixLng).
  - intros q [<-|[]]. vm_compute. reflexivity.
  - vm_compute. reflexivity.
Defined.

(** Counterexample to C3: a second fix at the same place within the
    millisecond of the previous one. The elapsed time is 0 and the speed is
    NaN, not 0. *)
Lemma zero_elapsed_speed_is_nan :
  let run :=
    onPosition fallbackPoints App_speedLimit trackingAtCamera
      fixLat fixLng clock clock in
  (timeDiff atCamera clock <=? 0) = true /\
  userSpeed run = nan /\
  (userSpeed run =? 0) = false.
Proof. vm_compute. repeat split. Qed.

(** Witness of C3, on the same run. *)
Lemma unguarded_elapsed_time_witness :
  let run :=
    onPosition fallbackPoints App_speedLimit trackingAtCamera
      fixLat fixLng clock clock in
  lastPosition trackingAtCamera = Some atCamera /\
  (timeDiff atCamera clock <=? 0) = true /\
  lastPosition (nextState run) = Some atCamera.
Proof.
  split; [reflexivity|]. split; [reflexivity|].
  exact (proj2 (proj2 (unguarded_elapsed_time fallbackPoints App_speedLimit
                         trackingAtCamera atCamera fixLat fixLng clock clock
                         eq_refl eq_refl))).
Defined.

(** Witness of C4: the first fix of a session. *)
Lemma first_fix_speed_zero_witness :
  userSpeed
    (onPosition fallbackPoints App_speedLimit initialState
       fixLat fixLng clock clock) = 0.
Proof.
  exact (proj1 (first_fix_speed_zero fallbackPoints App_speedLimit
                  initialState fixLat fixLng clock clock eq_refl)).
Defined.

(** Counterexample to C5: two fixes at the same place within one
    millisecond, from the start of a session. The second speed is NaN, and
    NaN is not at least 0. *)
Lemma same_millisecond_speed_not_nonneg :
  snd (track fallbackPoints App_speedLimit initialState sameMillisecond) =
    [0; nan] /\
  (0 <=? nan) = false.
Proof. vm_compute. split; reflexivity. Qed.

(** Witness of C5: 100 m in 36 s. *)
Lemma speed_nonneg_forward_in_time_witness :
  forwardInTime initialState walkNorth /\
  Forall (fun v => (0 <=? v) = true)
    (snd (track fallbackPoints App_speedLimit initialState walkNorth)).
Proof.
  assert (H : forwardInTime initialState walkNorth).
  { cbn [forwardInTime walkNorth initialState lastPosition].
    repeat split; vm_compute; reflexivity. }
  split; [exact H|].
  exact (speed_nonneg_forward_in_time fallbackPoints App_speedLimit
           walkNorth initialState H).
Defined.

End Runs.

(** * More of the program *)

(** ** Which fixes raise an alert *)

Section AlertRaised.

Import FloatOrder.

#[local] Open Scope float_scope.

Context {host : Host}.

Lemma scan_out_of_range userLat userLng acc p :
  (SpeedVariant.distanceTo userLat userLng p <=? 10) = false ->
  SpeedVariant.scanPoint userLat userLng acc p = acc.
Proof.
  unfold SpeedVariant.scanPoint, SpeedVariant.distanceTo. intros ->. reflexivity.
Qed.

Lemma fold_scan_filter userLat userLng points :
  forall acc,
    fold_left (SpeedVariant.scanPoint userLat userLng)
      (filter (fun p => SpeedVariant.distanceTo userLat userLng p <=? 10) points)
      acc =
    fold_left (SpeedVariant.scanPoint userLat userLng) points acc.
Proof.
  induction points as [|p points IH]; intros acc; cbn [filter fold_left].
  - reflexivity.
  - destruct (SpeedVariant.distanceTo userLat userLng p <=? 10) eqn:Hp.
    + cbn [fold_left]. apply IH.
    + rewrite (scan_out_of_range _ _ _ _ Hp). apply IH.
Qed.

(** The speed revision raises one alert for a fix that has a point within
    10 m and none for any other fix, whatever the speed and the limit. *)
Theorem alert_count_speed_revision (points : list Point.t)
    (speedLimit userLat userLng userSpeed : float) :
  List.length
    (SpeedVariant.checkProximityAndSpeed points speedLimit userLat userLng userSpeed)
  = if existsb (fun p => SpeedVariant.distanceTo userLat userLng p <=? 10) points
    then 1%nat else 0%nat.
Proof.
  pose proof (Scan.findNearest_selected userLat userLng points) as H.
  unfold SpeedVariant.selected in H.
  unfold SpeedVariant.checkProximityAndSpeed.
  destruct (fst (SpeedVariant.findNearest points userLat userLng)) as [np|].
  - destruct H as (_ & _ & Hin & _ & before & after & Hsplit & _).
    replace (existsb _ points) with true.
    + destruct (speedLimit <? userSpeed); reflexivity.
    + symmetry. apply existsb_exists. exists (SpeedVariant.point np).
      split; [rewrite Hsplit; apply in_elt | exact Hin].
  - destruct H as [_ Hout].
    destruct (existsb _ points) eqn:Hex; [|reflexivity].
    apply existsb_exists in Hex as (p & Hp & Hp10).
    rewrite (Hout p Hp) in Hp10. discriminate.
Qed.

(** Points farther than 10 m from the fix have no influence on the speed
    revision: the alerts are those of the sequence without them. *)
Theorem out_of_range_points_ignored (points : list Point.t)
    (speedLimit userLat userLng userSpeed : float) :
  SpeedVariant.checkProximityAndSpeed
    (filter (fun p => SpeedVariant.distanceTo userLat userLng p <=? 10) points)
    speedLimit userLat userLng userSpeed =
  SpeedVariant.checkProximityAndSpeed points speedLimit userLat userLng userSpeed.
Proof.
  unfold SpeedVariant.checkProximityAndSpeed, SpeedVariant.findNearest.
  rewrite fold_scan_filter. reflexivity.
Qed.

(** One run of the callback of the proximity-only revision stores the fix,
    centres the map on it at zoom 18 and raises the alert of the first point
    within 100 m, if there is one; it never raises two alerts. *)
Theorem proximity_only_run (points : list Point.t) (latitude longitude : float) :
  ProximityOnlyTracker.onPosition points latitude longitude =
  {| ProximityOnlyTracker.userLocation :=
       Some {| Location.lat := latitude; Location.lng := longitude |};
     ProximityOnlyTracker.effects :=
       ProximityOnlyTracker.SetView latitude longitude 18 ::
       match find (fun p => ProximityOnly.distanceTo latitude longitude p <=? 100)
               points with
       | Some p =>
           [ ProximityOnlyTracker.ProximityAlert
               (ProximityOnly.alertFor latitude longitude p) ]
       | None => []
       end |}.
Proof.
  unfold ProximityOnlyTracker.onPosition. do 2 f_equal.
  induction points as [|p points IH]; cbn [ProximityOnly.checkProximity find].
  - reflexivity.
  - fold (ProximityOnly.distanceTo latitude longitude p).
    destruct (ProximityOnly.distanceTo latitude longitude p <=? 100).
    + reflexivity.
    + exact IH.
Qed.

End AlertRaised.

(** ** The order of the points *)

Section PointOrder.

Import FloatOrder Rounding.

#[local] Open Scope float_scope.

Context {host : Host}.

Lemma SFeqb_cases x y :
  SFeqb x y = true ->
  x = y \/ exists s s', x = S754_zero s /\ y = S754_zero s'.
Proof.
  unfold SFeqb.
  destruct x as [s|s| |s m e], y as [s'|s'| |s' m' e']; cbn [SFcompare];
    try destruct s; try destruct s'; try discriminate;
    try (intros _; left; reflexivity);
    try (intros _; right; do 2 eexists; split; reflexivity);
    change (PosDef.Pos.compare_cont Eq m m') with (Pos.compare m m');
    destruct (Z.compare_spec e e'); try discriminate;
    destruct (Pos.compare_spec m m'); try discriminate;
    intros _; left; congruence.
Qed.

Lemma eqb_cases x y :
  (x =? y) = true ->
  x = y \/ exists s s', Prim2SF x = S754_zero s /\ Prim2SF y = S754_zero s'.
Proof.
  rewrite eqb_spec. intros H.
  destruct (SFeqb_cases _ _ H) as [E|E]; auto.
  left. apply Prim2SF_inj, E.
Qed.

Lemma SFsign_eqb_refl x s : SFsign x = Some s -> SFeqb x x = true.
Proof.
  unfold SFeqb.
  destruct x as [s'|s'| |s' m e]; cbn; try discriminate; intros _.
  - reflexivity.
  - destruct s'; reflexivity.
  - change (PosDef.Pos.compare_cont Eq m m) with (Pos.compare m m).
    rewrite Z.compare_refl, Pos.compare_refl. destruct s'; reflexivity.
Qed.

Lemma of_nonneg_Z_sign n : SFsign (Prim2SF (of_nonneg_Z n)) = Some false.
Proof.
  unfold of_nonneg_Z. rewrite of_uint63_spec.
  apply binary_normalize_sign, Uint63.to_Z_bounded.
Qed.

(** [Math.round] of a number is NaN only for NaN. *)
Lemma Math_round_not_nan x : is_nan x = false -> is_nan (Math_round x) = false.
Proof.
  intros H. unfold Math_round.
  destruct (Prim2SF x) as [s|s| |s m e] eqn:E; try exact H.
  destruct (0 <=? e)%Z; [exact H|].
  unfold is_nan. rewrite negb_false_iff, eqb_spec.
  destruct s.
  - rewrite opp_spec.
    pose proof (of_nonneg_Z_sign (- round_half_up (signed_mantissa true m) e)) as Hs.
    apply (SFsign_eqb_refl _ true).
    destruct (Prim2SF (of_nonneg_Z _)) as [s'|s'| |s' m' e']; cbn in *;
      try discriminate; injection Hs as ->; reflexivity.
  - apply (SFsign_eqb_refl _ false), of_nonneg_Z_sign.
Qed.

(** Numbers that compare equal have rounded values that compare equal. *)
Lemma Math_round_eqb x y :
  (x =? y) = true -> (Math_round x =? Math_round y) = true.
Proof.
  intros H. destruct (eqb_cases _ _ H) as [<-|(s & s' & Ex & Ey)].
  - assert (Hn : is_nan x = false) by (unfold is_nan; rewrite H; reflexivity).
    apply Math_round_not_nan in Hn. unfold is_nan in Hn.
    apply negb_false_iff in Hn. exact Hn.
  - unfold Math_round. rewrite Ex, Ey. exact H.
Qed.

Lemma leb_antisym x y : (x <=? y) = true -> (y <=? x) = true -> (x =? y) = true.
Proof. rewrite !leb_spec, eqb_spec. apply SFleb_antisym. Qed.

(** Whether the speed revision raises an alert, and the distance the alert
    shows, do not depend on the order of the points: only the point named
    can change, among points at the same distance. *)
Theorem alert_distance_order_independent (points points' : list Point.t)
    (speedLimit userLat userLng userSpeed : float) :
  Permutation points points' ->
  Forall2 (fun a a' => (Alert.distance a =? Alert.distance a') = true)
    (SpeedVariant.checkProximityAndSpeed points speedLimit userLat userLng userSpeed)
    (SpeedVariant.checkProximityAndSpeed points' speedLimit userLat userLng userSpeed).
Proof.
  intros Hperm.
  pose proof (Scan.findNearest_selected userLat userLng points) as H.
  pose proof (Scan.findNearest_selected userLat userLng points') as H'.
  unfold SpeedVariant.selected in H, H'.
  unfold SpeedVariant.checkProximityAndSpeed.
  destruct (fst (SpeedVariant.findNearest points userLat userLng)) as [np|],
           (fst (SpeedVariant.findNearest points' userLat userLng)) as [np'|].
  - destruct H as (_ & Hd & Hin & Hmin & before & after & Hsplit & _).
    destruct H' as (_ & Hd' & Hin' & Hmin' & before' & after' & Hsplit' & _).
    assert (Hp : In (SpeedVariant.point np) points')
      by (apply (Permutation_in _ Hperm); rewrite Hsplit; apply in_elt).
    assert (Hp' : In (SpeedVariant.point np') points)
      by (apply (Permutation_in _ (Permutation_sym Hperm)); rewrite Hsplit';
          apply in_elt).
    assert (Heq : (SpeedVariant.distance np =? SpeedVariant.distance np') = true).
    { rewrite Hd, Hd'. apply leb_antisym; auto. }
    destruct (speedLimit <? userSpeed); repeat constructor; cbn;
      apply Math_round_eqb, Heq.
  - destruct H as (_ & _ & Hin & _ & before & after & Hsplit & _).
    destruct H' as [_ Hout].
    assert (Hp : In (SpeedVariant.point np) points')
      by (apply (Permutation_in _ Hperm); rewrite Hsplit; apply in_elt).
    rewrite (Hout _ Hp) in Hin. discriminate.
  - destruct H' as (_ & _ & Hin' & _ & before' & after' & Hsplit' & _).
    destruct H as [_ Hout].
    assert (Hp' : In (SpeedVariant.point np') points)
      by (apply (Permutation_in _ (Permutation_sym Hperm)); rewrite Hsplit';
          apply in_elt).
    rewrite (Hout _ Hp') in Hin'. discriminate.
  - constructor.
Qed.

End PointOrder.

(** ** What a run of the callback depends on *)

Section RunDependencies.

Import SpeedVariant.

#[local] Open Scope float_scope.

Context {host : Host}.

(** On the first fix of a session the speed is 0, so unless the speed limit
    is negative no speed alert is raised: a point within 10 m gets its own
    alert, with its type and name. *)
Theorem first_fix_raises_no_speed_alert (points : list Point.t)
    (speedLimit : float) (st : TrackerState)
    (latitude longitude now1 now2 : float) :
  lastPosition st = None ->
  (speedLimit <? 0) = false ->
  effects (onPosition points speedLimit st latitude longitude now1 now2) =
  SpeedUpdate "0.0" :: SetView latitude longitude 18 ::
  match fst (findNearest points latitude longitude) with
  | Some np =>
      [ ProximityAlert
          {| Alert.type := Point.type (point np);
             Alert.name := Point.name (point np);
             Alert.distance := Math_round (distance np) |} ]
  | None => []
  end.
Proof.
  intros Hlast Hlimit. cbn. rewrite Hlast. cbn.
  unfold checkProximityAndSpeed. rewrite Hlimit.
  destruct (fst (findNearest points latitude longitude)); reflexivity.
Qed.

Lemma track_ignores_points points speedLimit points' speedLimit' fixes :
  forall st,
    track points speedLimit st fixes = track points' speedLimit' st fixes.
Proof.
  induction fixes as [|[[[latitude longitude] now1] now2] rest IH]; intros st.
  - reflexivity.
  - cbn [track onPosition nextState userSpeed]. rewrite IH. reflexivity.
Qed.

(** The tracker keeps no history beyond the last fix, and reads neither the
    points nor the speed limit: after a first fix, the state reached and the
    speeds of all later fixes are the same whatever state the sequence
    started from. *)
Theorem speeds_depend_on_previous_fix_only
    (points points' : list Point.t) (speedLimit speedLimit' : float)
    (st st' : TrackerState)
    (firstFix : float * float * float * float)
    (rest : list (float * float * float * float)) :
  fst (track points speedLimit st (firstFix :: rest)) =
    fst (track points' speedLimit' st' (firstFix :: rest)) /\
  tl (snd (track points speedLimit st (firstFix :: rest))) =
    tl (snd (track points' speedLimit' st' (firstFix :: rest))).
Proof.
  destruct firstFix as [[[latitude longitude] now1] now2].
  cbn [track onPosition nextState userSpeed].
  rewrite (track_ignores_points points speedLimit points' speedLimit').
  destruct (track points' speedLimit' _ rest) as [st'' speeds].
  split; reflexivity.
Qed.

Lemma zero_over_elapsed t :
  is_nan t = false -> (t =? 0) = false ->
  exists s, Prim2SF (0 / t * 3.6) = S754_zero s.
Proof.
  unfold is_nan. rewrite negb_false_iff, !eqb_spec, mul_spec, div_spec.
  unfold SF64mul, SF64div.
  change (Prim2SF 0) with (S754_zero false).
  change (Prim2SF 3.6) with (S754_finite false 8106479329266893 (-51)).
  destruct (Prim2SF t) as [s|s| |s m e]; cbn; try discriminate; eauto.
Qed.

Lemma distance_to_same_place (lat lng : float) :
  is_finite lat = true -> is_finite lng = true ->
  fixedAtZero host ->
  is_finite (Math_cos (lat * Math_PI / 180) * Math_cos (lat * Math_PI / 180))
  = true ->
  calculateDistance lat lng lat lng = 0.
Proof.
  intros Hlat Hlng (Hsin & Hpow & Hsqrt & Hatan) Hcos.
  assert (Hzero : 0 * Math_PI / 180 / 2 = 0) by reflexivity.
  assert (Hone : 1 - 0 = 1) by reflexivity.
  unfold calculateDistance. cbv zeta.
  rewrite (sub_diag lat Hlat), (sub_diag lng Hlng), Hzero, Hsin, Hpow.
  rewrite (square_times_zero _ Hcos).
  change (0 + 0) with 0.
  rewrite Hone, Hsqrt, Hatan. reflexivity.
Qed.

(** Standing still reads 0. On a host that returns the values ECMA-262 fixes
    at [+0] and a cosine of the latitude with a finite square, a fix at the
    coordinates of the previous one gives a speed that is a zero, shown as
    ["0.0"], whenever the elapsed time is neither 0 nor NaN. *)
Theorem standing_still_speed_zero (points : list Point.t) (speedLimit : float)
    (st : TrackerState) (latitude longitude time now1 now2 : float) :
  lastPosition st =
    Some {| LastPosition.lat := latitude; LastPosition.lng := longitude;
            LastPosition.time := time |} ->
  is_finite latitude = true -> is_finite longitude = true ->
  fixedAtZero host ->
  is_finite (Math_cos (latitude * Math_PI / 180) *
             Math_cos (latitude * Math_PI / 180)) = true ->
  is_nan ((now1 - time) / 1000) = false ->
  ((now1 - time) / 1000 =? 0) = false ->
  let run := onPosition points speedLimit st latitude longitude now1 now2 in
  (userSpeed run =? 0) = true /\
  hd_error (effects run) = Some (SpeedUpdate "0.0").
Proof.
  intros Hlast Hlat Hlng Hfix Hcos Hnan Hzero run. subst run.
  unfold onPosition, estimateSpeed.
  cbn [userSpeed effects hd_error]. rewrite Hlast.
  cbn [LastPosition.lat LastPosition.lng LastPosition.time
       Location.lat Location.lng].
  rewrite (distance_to_same_place _ _ Hlat Hlng Hfix Hcos).
  destruct (zero_over_elapsed _ Hnan Hzero) as [s Hs].
  split.
  - rewrite eqb_spec, Hs. reflexivity.
  - unfold toFixed. rewrite Hs. reflexivity.
Qed.

Lemma positive_over_zero d :
  (0 <? d) = true -> d / 0 * 3.6 = infinity.
Proof.
  rewrite ltb_spec. intros H. apply Prim2SF_inj.
  rewrite mul_spec, div_spec. unfold SF64mul, SF64div.
  change (Prim2SF 0) with (S754_zero false) in *.
  change (Prim2SF 3.6) with (S754_finite false 8106479329266893 (-51)).
  change (Prim2SF infinity) with (S754_infinity false).
  destruct (Prim2SF d) as [s|s| |s m e]; cbn in H; try discriminate;
    destruct s; try discriminate; reflexivity.
Qed.

(** A fix that has moved, read in the very millisecond the previous fix was
    stored, gives the speed [Infinity]: with a point within 10 m and any
    limit below [Infinity] the speed alert is raised. *)
Theorem moved_within_one_millisecond (points : list Point.t) (speedLimit : float)
    (st : TrackerState) (last : LastPosition.t) (np : Nearest)
    (latitude longitude now2 : float) :
  lastPosition st = Some last ->
  is_finite (LastPosition.time last) = true ->
  (0 <? distanceFrom last latitude longitude) = true ->
  (speedLimit <? Infinity) = true ->
  fst (findNearest points latitude longitude) = Some np ->
  let run :=
    onPosition points speedLimit st latitude longitude
      (LastPosition.time last) now2 in
  userSpeed run = Infinity /\
  effects run =
    [ SpeedUpdate (Number_toString Infinity);
      SetView latitude longitude 18;
      ProximityAlert
        {| Alert.type := "Speed Alert";
           Alert.name :=
             slowDownMessage Infinity speedLimit (Point.name (point np));
           Alert.distance := Math_round (distance np) |} ].
Proof.
  intros Hlast Htime Hd Hlimit Hnp run.
  assert (Hspeed : userSpeed run = Infinity).
  { subst run. unfold onPosition, estimateSpeed. cbn [userSpeed].
    rewrite Hlast. cbn [Location.lat Location.lng].
    rewrite (sub_diag _ Htime).
    change (0 / 1000) with 0.
    apply positive_over_zero, Hd. }
  split; [exact Hspeed|].
  subst run. unfold onPosition in *. cbn [userSpeed effects] in *.
  rewrite Hspeed. unfold checkProximityAndSpeed. rewrite Hnp, Hlimit.
  reflexivity.
Qed.

End RunDependencies.

(** ** The alert banner *)

Module RoundHalf.

Import FloatOrder Rounding RoundBound.

#[local] Open Scope float_scope.

Lemma digits2_pos_lower m : (2 ^ (Z.pos (digits2_pos m) - 1) <= Z.pos m)%Z.
Proof.
  induction m as [p IH|p IH|]; cbn [digits2_pos].
  - rewrite Pos2Z.inj_succ.
    replace (Z.succ (Z.pos (digits2_pos p)) - 1)%Z
      with (Z.succ (Z.pos (digits2_pos p) - 1)) by lia.
    rewrite Z.pow_succ_r by lia. lia.
  - rewrite Pos2Z.inj_succ.
    replace (Z.succ (Z.pos (digits2_pos p)) - 1)%Z
      with (Z.succ (Z.pos (digits2_pos p) - 1)) by lia.
    rewrite Z.pow_succ_r by lia. lia.
  - reflexivity.
Qed.

(** Above the smallest exponent the mantissa of a number has its 53 bits. *)
Lemma valid_normal_mantissa s m e :
  valid_binary (S754_finite s m e) = true -> (-1074 < e)%Z ->
  (2 ^ 52 <= Z.pos m)%Z.
Proof.
  cbn [SpecFloat.valid_binary]. unfold bounded, canonical_mantissa, fexp.
  intros H He. apply andb_true_iff in H. destruct H as [H _].
  apply Z.eqb_eq in H. unfold SpecFloat.emin, prec, emax in H.
  assert (Hd : Z.pos (digits2_pos m) = 53%Z) by lia.
  pose proof (digits2_pos_lower m) as Hm. rewrite Hd in Hm. exact Hm.
Qed.

Lemma round_half_up_ge_1 m e :
  (e < 0)%Z -> (2 ^ (- e - 1) <= Z.pos m)%Z ->
  (1 <=? round_half_up (Z.pos m) e)%Z = true.
Proof.
  intros He Hm. apply Z.leb_le. unfold round_half_up.
  assert (Hp : (0 < 2 ^ (- e - 1))%Z) by (apply Z.pow_pos_nonneg; lia).
  assert (Hk : (2 ^ (- e) = 2 * 2 ^ (- e - 1))%Z).
  { replace (- e)%Z with (Z.succ (- e - 1)) at 1 by lia.
    apply Z.pow_succ_r. lia. }
  apply Z.div_le_lower_bound; lia.
Qed.

Lemma round_half_up_lt_1 m e :
  (e < 0)%Z -> (Z.pos m < 2 ^ (- e - 1))%Z ->
  (1 <=? round_half_up (Z.pos m) e)%Z = false.
Proof.
  intros He Hm. apply Z.leb_gt. unfold round_half_up.
  assert (Hk : (2 ^ (- e) = 2 * 2 ^ (- e - 1))%Z).
  { replace (- e)%Z with (Z.succ (- e - 1)) at 1 by lia.
    apply Z.pow_succ_r. lia. }
  rewrite Z.div_small; lia.
Qed.

(** A finite positive number below 1 is at least one half exactly when it
    rounds to 1 or more. *)
Lemma half_le_mantissa m e :
  valid_binary (S754_finite false m e) = true -> (e < 0)%Z ->
  SFleb (S754_finite false 4503599627370496 (-53)) (S754_finite false m e) =
  (1 <=? round_half_up (Z.pos m) e)%Z.
Proof.
  intros Hv He. unfold SFleb; cbn [SFcompare].
  change (PosDef.Pos.compare_cont Eq 4503599627370496 m)
    with (Pos.compare 4503599627370496 m).
  pose proof (valid_mantissa_bound _ _ _ Hv) as Hlt.
  destruct (Z.compare_spec (-53) e) as [<-|Hgt|Hsmall].
  - destruct (Pos.compare_spec 4503599627370496 m) as [<-|Hm|Hm]; symmetry.
    + apply round_half_up_ge_1; [exact He|]. apply Z.le_refl.
    + apply round_half_up_ge_1; [exact He|].
      apply Z.lt_le_incl. exact (Pos2Z.pos_lt_pos _ _ Hm).
    + apply round_half_up_lt_1; [exact He|].
      exact (Pos2Z.pos_lt_pos _ _ Hm).
  - symmetry. apply round_half_up_ge_1; [lia|].
    pose proof (valid_normal_mantissa _ _ _ Hv ltac:(lia)) as Hm.
    assert ((2 ^ (- e - 1) <= 2 ^ 52)%Z) by (apply Z.pow_le_mono_r; lia).
    lia.
  - symmetry. apply round_half_up_lt_1; [lia|].
    assert ((2 ^ 53 <= 2 ^ (- e - 1))%Z) by (apply Z.pow_le_mono_r; lia).
    lia.
Qed.

Lemma small_natural_positive n :
  (0 <= n <= 10)%Z -> (0 <? of_nonneg_Z n) = (1 <=? n)%Z.
Proof.
  intros Hn.
  assert (H : forallb (fun k => Bool.eqb (0 <? of_nonneg_Z (Z.of_nat k))
                                  (1 <=? Z.of_nat k)%Z) (seq 0 11) = true)
    by reflexivity.
  rewrite forallb_forall in H.
  rewrite <- (Z2Nat.id n) by lia.
  apply eqb_prop, H, in_seq. lia.
Qed.

(** Within 10, [Math.round] gives something above 0 exactly from one half
    on. *)
Lemma Math_round_positive x :
  (x <=? 10) = true -> (0 <? Math_round x) = (0.5 <=? x).
Proof.
  intros H. unfold Math_round.
  pose proof (Prim2SF_valid x) as Hv.
  destruct (Prim2SF x) as [s|s| |s m e] eqn:E.
  - rewrite ltb_spec, leb_spec, E. reflexivity.
  - rewrite leb_spec, E in H. rewrite ltb_spec, leb_spec, E.
    destruct s; [reflexivity | discriminate].
  - rewrite leb_spec, E in H. discriminate.
  - destruct (Z.leb_spec 0 e) as [He|He].
    + rewrite ltb_spec, leb_spec, E.
      change (Prim2SF 0) with (S754_zero false).
      change (Prim2SF 0.5) with (S754_finite false 4503599627370496 (-53)).
      destruct s; [reflexivity|].
      unfold SFltb, SFleb; cbn [SFcompare].
      destruct (Z.compare_spec (-53) e); solve [reflexivity | lia].
    + destruct s.
      * rewrite ltb_spec, leb_spec, opp_spec, E.
        change (Prim2SF 0) with (S754_zero false).
        change (Prim2SF 0.5) with (S754_finite false 4503599627370496 (-53)).
        pose proof (of_nonneg_Z_sign (- round_half_up (signed_mantissa true m) e))
          as Hs.
        destruct (Prim2SF (of_nonneg_Z _)) as [s'|s'| |s' m' e']; cbn in Hs;
          try discriminate; injection Hs as ->; reflexivity.
      * cbn [signed_mantissa].
        rewrite leb_spec, E in H.
        change (Prim2SF 10) with (S754_finite false 5629499534213120 (-49)) in H.
        destruct (below_bound_mantissa m e 5629499534213120 (-49) 10
                    ltac:(lia) ltac:(reflexivity) ltac:(lia)
                    (valid_mantissa_bound _ _ _ Hv) H) as [_ Hm].
        pose proof (round_half_up_bounds m e 10 He Hm) as Hn.
        rewrite (small_natural_positive _ Hn).
        rewrite leb_spec, E.
        change (Prim2SF 0.5) with (S754_finite false 4503599627370496 (-53)).
        symmetry. apply half_le_mantissa; assumption.
Qed.

End RoundHalf.

Section Banner.

Import SpeedVariant.

#[local] Open Scope float_scope.

Context {host : Host}.

(** The banner of the speed revision for the alert of a fix: it is red when
    the user is speeding, and it shows the distance, the rounded one, exactly
    when the selected point is at least half a metre away. *)
Theorem banner_of_raised_alert (points : list Point.t)
    (speedLimit userLat userLng userSpeed : float) (np : Nearest) :
  fst (findNearest points userLat userLng) = Some np ->
  Forall
    (fun a =>
       ((speedLimit <? userSpeed) = true -> App.backgroundColor a = "#f44336"%string) /\
       App.distanceSuffix a =
         if 0.5 <=? distance np then
           ("(" ++ Number_toString (Math_round (distance np)) ++ "m away)")%string
         else ""%string)
    (checkProximityAndSpeed points speedLimit userLat userLng userSpeed).
Proof.
  intros Hnp.
  pose proof (Scan.findNearest_selected userLat userLng points) as H.
  unfold selected in H. rewrite Hnp in H.
  destruct H as (_ & Hd & Hin & _). rewrite <- Hd in Hin.
  unfold checkProximityAndSpeed. rewrite Hnp.
  destruct (speedLimit <? userSpeed); (constructor; [|constructor]);
    unfold App.distanceSuffix; cbn [Alert.distance];
    rewrite (RoundHalf.Math_round_positive _ Hin);
    (split; [intros; try discriminate; reflexivity | reflexivity]).
Qed.

End Banner.

(** ** The alert cell and its timers *)

Section AlertCell.

(** Whenever an alert is displayed a callback that clears it is still to
    run: no alert stays on the screen with no timer armed. *)
Theorem displayed_alert_has_timer (st : App.State) :
  App.Reachable st -> App.alert st <> None -> (0 < App.timers st)%nat.
Proof.
  intros Hreach. induction Hreach as [|st st' _ IH Hstep].
  - intros H. contradiction.
  - destruct Hstep as [alertInfo st|st Hpos]; cbn.
    + intros _. apply Nat.lt_0_succ.
    + intros H. contradiction.
Qed.

End AlertCell.

(** ** More runs on concrete fixes *)

Section MoreRuns.

Import SpeedVariant Examples.

#[local] Open Scope float_scope.
#[local] Existing Instance RefHost.host.

(** The points in the opposite order: the alert names the spare camera, at
    the same distance. *)
Example reversed_points_name_the_other_camera :
  map Alert.name
    (checkProximityAndSpeed (rev gatePoints) App_speedLimit fixLat fixLng 3) =
  ["Gate Camera (spare)"%string].
Proof. vm_compute. reflexivity. Qed.

Lemma alert_distance_order_independent_witness :
  Permutation gatePoints (rev gatePoints) /\
  Forall2 (fun a a' => (Alert.distance a =? Alert.distance a') = true)
    (checkProximityAndSpeed gatePoints App_speedLimit fixLat fixLng 3)
    (checkProximityAndSpeed (rev gatePoints) App_speedLimit fixLat fixLng 3).
Proof.
  split; [apply Permutation_rev|].
  exact (alert_distance_order_independent gatePoints (rev gatePoints)
           App_speedLimit fixLat fixLng 3 (Permutation_rev gatePoints)).
Defined.

Lemma first_fix_raises_no_speed_alert_witness :
  effects (onPosition gatePoints App_speedLimit initialState
             fixLat fixLng clock clock) =
  [ SpeedUpdate "0.0"; SetView fixLat fixLng 18;
    ProximityAlert
      {| Alert.type := "CCTV"; Alert.name := "Gate Camera";
         Alert.distance := 5 |} ].
Proof.
  rewrite (first_fix_raises_no_speed_alert gatePoints App_speedLimit
             initialState fixLat fixLng clock clock eq_refl eq_refl).
  vm_compute. reflexivity.
Defined.

(** Five metres north of the previous fix, in the same millisecond. *)
Lemma moved_within_one_millisecond_witness :
  let run :=
    onPosition gatePoints App_speedLimit trackingAtCamera
      (Point.lat fiveMetres) (Point.lng fiveMetres) clock clock in
  userSpeed run = Infinity /\
  map (fun a => Alert.type a)
    (checkProximityAndSpeed gatePoints App_speedLimit
       (Point.lat fiveMetres) (Point.lng fiveMetres) (userSpeed run)) =
  ["Speed Alert"%string].
Proof.
  assert (H : fst (findNearest gatePoints
                     (Point.lat fiveMetres) (Point.lng fiveMetres)) =
              Some {| point := fiveMetres;
                      distance := distanceTo (Point.lat fiveMetres)
                                    (Point.lng fiveMetres) fiveMetres |})
    by (vm_compute; reflexivity).
  pose proof (moved_within_one_millisecond gatePoints App_speedLimit
                trackingAtCamera atCamera _
                (Point.lat fiveMetres) (Point.lng fiveMetres) clock
                eq_refl eq_refl eq_refl eq_refl H) as [Hspeed _].
  split; [exact Hspeed|].
  vm_compute. reflexivity.
Defined.

(** One second later at the same place. *)
Lemma standing_still_speed_zero_witness :
  let run :=
    onPosition fallbackPoints App_speedLimit trackingAtCamera
      fixLat fixLng 1700000001000 1700000001000 in
  (userSpeed run =? 0) = true /\
  hd_error (effects run) = Some (SpeedUpdate "0.0").
Proof.
  apply (standing_still_speed_zero fallbackPoints App_speedLimit
           trackingAtCamera fixLat fixLng clock 1700000001000 1700000001000);
    try reflexivity.
  repeat split; vm_compute; reflexivity.
Defined.

Lemma banner_of_raised_alert_witness :
  map App.bannerText
    (checkProximityAndSpeed gatePoints App_speedLimit fixLat fixLng 12) =
  [ "⚠️ Speed Alert: ⚠️ SLOW DOWN! Speed: 12.0 km/h (Max: 5 km/h) near Gate Camera (5m away)"%string ]
  /\
  Forall
    (fun a =>
       ((App_speedLimit <? 12) = true -> App.backgroundColor a = "#f44336"%string) /\
       App.distanceSuffix a =
         if 0.5 <=? distanceTo fixLat fixLng fiveMetres then
           ("(" ++ Number_toString (Math_round (distanceTo fixLat fixLng fiveMetres))
            ++ "m away)")%string
         else ""%string)
    (checkProximityAndSpeed gatePoints App_speedLimit fixLat fixLng 12).
Proof.
  assert (H : fst (findNearest gatePoints fixLat fixLng) =
              Some {| point := fiveMetres;
                      distance := distanceTo fixLat fixLng fiveMetres |})
    by (vm_compute; reflexivity).
  split; [vm_compute; reflexivity|].
  exact (banner_of_raised_alert gatePoints App_speedLimit fixLat fixLng 12 _ H).
Defined.

(** At the point itself the banner shows no distance. *)
Example banner_at_the_point :
  map App.bannerText
    (checkProximityAndSpeed fallbackPoints App_speedLimit fixLat fixLng 3) =
  [ "⚠️ CCTV: Lipton Camera-2 "%string ] /\
  map App.bannerText1 (ProximityOnly.checkProximity fallbackPoints fixLat fixLng) =
  [ "⚠️ CCTV Ahead: Lipton Camera-2 (0m away)"%string ].
Proof. split; vm_compute; reflexivity. Qed.

Lemma displayed_alert_has_timer_witness :
  App.Reachable
    (App.handleProximityAlert (ProximityOnly.alertFor fixLat fixLng fiveMetres)
       App.initial) /\
  (0 < App.timers
         (App.handleProximityAlert (ProximityOnly.alertFor fixLat fixLng fiveMetres)
            App.initial))%nat.
Proof.
  assert (H : App.Reachable
                (App.handleProximityAlert
                   (ProximityOnly.alertFor fixLat fixLng fiveMetres) App.initial)).
  { apply (App.ReachStep App.initial); constructor. }
  split; [exact H|].
  apply (displayed_alert_has_timer _ H). discriminate.
Defined.

(** The callback armed by a first alert clears a second alert that came in
    before it ran, and the callback of the second alert is still armed. *)
Example earlier_timer_clears_later_alert (first second : Alert.t) :
  let st := App.handleProximityAlert second
              (App.handleProximityAlert first App.initial) in
  App.Reachable (App.timerFires st) /\
  App.alert (App.timerFires st) = None /\
  App.timers (App.timerFires st) = 1%nat.
Proof.
  cbn. repeat split.
  eapply App.ReachStep; [|apply App.StepTimer; cbn; apply Nat.lt_0_succ].
  eapply App.ReachStep; [|apply App.StepAlert].
  eapply App.ReachStep; [|apply App.StepAlert].
  constructor.
Qed.

End MoreRuns.
